(** * eSIM booking bot: slot registry, booking store and conversation flow

    A shallow embedding of [examples/esim_booking_bot.py] and the proofs of
    the properties its specification states about it.

    Conventions of the embedding.
    - Python [str] is [string], read as ASCII text: the character tables
      ([isspace], [isalnum], [upper]) are those of Python on code points
      below 128.
    - [datetime.date] and (naive) [datetime.time] are records of their
      components; both compare and hash by value, as in Python.
    - The dictionaries of the bot are [gmap]s.  A session dictionary
      ([Dict[str, object]]) maps its keys to dynamically typed values
      ([pyval]); the draft stored under the key ["preview"] is kept in a
      field of its own, see [progress].
    - A [BookingRequest] object is referenced by the session that built
      it until [_save_request] stores it and, in the same call, pops that
      session (the draft's [user_id] is the key of its session, see
      [draft_owner]): no request is ever reachable from two places, and
      the store and the sessions hold requests by value.
    - A handler is a function from the bot state to an [outcome]: the new
      state with the messages handed to the transport, or the state as it
      is when an exception leaves the handler. *)

From stdpp Require Import base decidable option countable list strings
  fin_maps gmap.
From Stdlib Require Import ZArith Ascii Lia.

Local Open Scope Z_scope.

(** ** Python values *)

(** [datetime.time(hour, minute, second, microsecond)], naive. *)
Record time := mk_time {
  hour : nat;
  minute : nat;
  second : nat;
  microsecond : nat
}.

(** [datetime.date(year, month, day)]. *)
Record date := mk_date {
  year : nat;
  month : nat;
  day : nat
}.

#[global] Instance time_eq_dec : EqDecision time.
Proof. solve_decision. Defined.

#[global] Instance date_eq_dec : EqDecision date.
Proof. solve_decision. Defined.

#[global] Instance time_countable : Countable time.
Proof.
  refine (inj_countable'
    (λ t, (hour t, minute t, second t, microsecond t))
    (λ q, let '(h, m, s, u) := q in mk_time h m s u) _).
  by intros [].
Defined.

#[global] Instance date_countable : Countable date.
Proof.
  refine (inj_countable'
    (λ d, (year d, month d, day d))
    (λ q, let '(y, m, d) := q in mk_date y m d) _).
  by intros [].
Defined.

(** The objects a session dictionary, a form answer or a registry key
    holds: [None], a [str], an [int], a [date] or a [time]. *)
Inductive pyval :=
  | PNone
  | PStr (s : string)
  | PInt (n : Z)
  | PDate (d : date)
  | PTime (t : time).

#[global] Instance pyval_eq_dec : EqDecision pyval.
Proof. solve_decision. Defined.

#[global] Instance pyval_countable : Countable pyval.
Proof.
  refine (inj_countable'
    (λ v, match v with
          | PNone => inl ()
          | PStr s => inr (inl s)
          | PInt n => inr (inr (inl n))
          | PDate d => inr (inr (inr (inl d)))
          | PTime t => inr (inr (inr (inr t)))
          end)
    (λ e, match e with
          | inl () => PNone
          | inr (inl s) => PStr s
          | inr (inr (inl n)) => PInt n
          | inr (inr (inr (inl d))) => PDate d
          | inr (inr (inr (inr t))) => PTime t
          end) _).
  by intros [].
Defined.

(** Python truth value: [None], [""] and [0] are false. *)
Definition truthy (v : pyval) : bool :=
  match v with
  | PNone => false
  | PStr s => negb (bool_decide (s = ""))
  | PInt n => negb (n =? 0)
  | PDate _ | PTime _ => true
  end.

(** [x or y] on an optional string ([None] when absent). *)
Definition or_else (x : option string) (y : string) : string :=
  match x with
  | Some s => if bool_decide (s = "") then y else s
  | None => y
  end.

(** ** String methods *)

Module Str.

Definition code (c : ascii) : N := N_of_ascii c.

(** [str.isspace] on one character: TAB..CR, FS..US and the space. *)
Definition isspace (c : ascii) : bool :=
  ((9 <=? code c) && (code c <=? 13) || (28 <=? code c) && (code c <=? 32))%N.

Definition isdigit (c : ascii) : bool :=
  ((48 <=? code c) && (code c <=? 57))%N.

Definition isupper (c : ascii) : bool :=
  ((65 <=? code c) && (code c <=? 90))%N.

Definition islower (c : ascii) : bool :=
  ((97 <=? code c) && (code c <=? 122))%N.

Definition isalnum_char (c : ascii) : bool :=
  isdigit c || isupper c || islower c.

Definition upper_char (c : ascii) : ascii :=
  if islower c then ascii_of_N (code c - 32) else c.

Fixpoint lstrip (s : string) : string :=
  match s with
  | String c s' => if isspace c then lstrip s' else s
  | EmptyString => EmptyString
  end.

Definition rstrip (s : string) : string :=
  String.rev (lstrip (String.rev s)).

(** [s.strip()] *)
Definition strip (s : string) : string := rstrip (lstrip s).

(** [s.upper()] *)
Fixpoint upper (s : string) : string :=
  match s with
  | String c s' => String (upper_char c) (upper s')
  | EmptyString => EmptyString
  end.

(** [s.replace(c, "")] for a one-character [c]: every occurrence goes. *)
Fixpoint remove (c : ascii) (s : string) : string :=
  match s with
  | String a s' => if bool_decide (a = c) then remove c s' else String a (remove c s')
  | EmptyString => EmptyString
  end.

Fixpoint all_chars (p : ascii → bool) (s : string) : bool :=
  match s with
  | String c s' => p c && all_chars p s'
  | EmptyString => true
  end.

(** [s.isalnum()]: at least one character and all of them alphanumeric. *)
Definition isalnum (s : string) : bool :=
  negb (bool_decide (s = "")) && all_chars isalnum_char s.

(** [len(s)] *)
Definition len (s : string) : nat := String.length s.

(** [s.split(sep)] for a one-character [sep]. *)
Fixpoint split (sep : ascii) (s : string) : list string :=
  match s with
  | String a s' =>
      if bool_decide (a = sep) then EmptyString :: split sep s'
      else match split sep s' with
           | part :: parts => String a part :: parts
           | [] => [String a EmptyString]
           end
  | EmptyString => [EmptyString]
  end.

(** [s.split(sep, maxsplit=1)] *)
Fixpoint split1 (sep : ascii) (s : string) : list string :=
  match s with
  | String a s' =>
      if bool_decide (a = sep) then [EmptyString; s']
      else match split1 sep s' with
           | part :: parts => String a part :: parts
           | [] => [String a EmptyString]
           end
  | EmptyString => [EmptyString]
  end.

(** No occurrence of [sep] in [s]. *)
Definition free_of (sep : ascii) (s : string) : Prop :=
  all_chars (λ a, negb (bool_decide (a = sep))) s = true.

End Str.

(** ** Field validators (lines 259-274)

    Each returns the triple [(valid, value, error)] of the source. *)

Definition parse_result : Type := bool * pyval * option string.

Definition _parse_required_text (raw : string) : parse_result :=
  let cleaned := Str.strip raw in
  (negb (bool_decide (cleaned = "")), PStr cleaned, Some "This field is required.").

Definition _parse_optional_text (raw : string) : parse_result :=
  let cleaned := Str.strip raw in
  (true, if bool_decide (cleaned = "") then PNone else PStr cleaned, None).

Definition _parse_postal_code (raw : string) : parse_result :=
  let cleaned := Str.upper (Str.strip raw) in
  let valid :=
    bool_decide (Str.len cleaned = 7%nat)
    && bool_decide (String.get 3 cleaned = Some " "%char)
    && Str.isalnum (Str.remove " " cleaned) in
  (valid, if valid then PStr cleaned else PNone, Some "Please use the format A2A 1B4.").

(** ** Data model (lines 9-37) *)

Definition TIME_SLOTS : list time :=
  [mk_time 8 0 0 0; mk_time 10 0 0 0; mk_time 12 0 0 0; mk_time 14 0 0 0;
   mk_time 16 0 0 0].

Definition CATEGORIES : list string :=
  ["New registration"; "Mobile SIM activation"; "Technical support"].

(** The dataclasses do not check the types of their fields: a field holds
    whatever object the session dictionary gave. *)
Record Address := mk_address {
  suite : pyval;
  street_number : pyval;
  street_name : pyval;
  city : pyval;
  province : pyval;
  postal_code : pyval
}.

Record Identity := mk_identity {
  first_name : pyval;
  middle_name : pyval;
  last_name : pyval;
  date_of_birth : pyval;
  drivers_license : pyval;
  license_issue : pyval;
  license_expiry : pyval
}.

Record BookingRequest := mk_request {
  user_id : Z;
  category : pyval;
  appointment_date : pyval;
  time_slot : pyval;
  identity : Identity;
  address : Address;
  status : string;
  booking_id : string
}.

#[global] Instance address_eq_dec : EqDecision Address.
Proof. solve_decision. Defined.
#[global] Instance identity_eq_dec : EqDecision Identity.
Proof. solve_decision. Defined.
#[global] Instance request_eq_dec : EqDecision BookingRequest.
Proof. solve_decision. Defined.

(** [request.status = s] *)
Definition set_status (s : string) (r : BookingRequest) : BookingRequest :=
  mk_request (user_id r) (category r) (appointment_date r) (time_slot r)
    (identity r) (address r) s (booking_id r).

(** One session dictionary of [in_progress].  [entries] holds every key
    but ["preview"]; [preview] is the value under ["preview"], which is
    only ever a [BookingRequest] (line 192) and which no other key holds
    (see [form_keys_reserved]). *)
Record progress := mk_progress {
  entries : gmap string pyval;
  preview : option BookingRequest
}.

#[global] Instance progress_eq_dec : EqDecision progress.
Proof. solve_decision. Defined.

(** [progress[k] = v] for a key other than ["preview"] *)
Definition set_entry (k : string) (v : pyval) (p : progress) : progress :=
  mk_progress (<[k := v]> (entries p)) (preview p).

(** [progress["preview"] = r] *)
Definition set_preview (r : BookingRequest) (p : progress) : progress :=
  mk_progress (entries p) (Some r).

(** [progress.get(k, d)] and [progress.get(k)] *)
Definition get_entry (k : string) (d : pyval) (p : progress) : pyval :=
  default d (entries p !! k).

(** [bool(progress)]: a dictionary is true when it has a key. *)
Definition nonempty (p : progress) : bool :=
  negb (bool_decide (entries p = ∅)) || bool_decide (is_Some (preview p)).

(** The attributes of [EsimBookingBot] (lines 69-73). *)
Record bot := mk_bot {
  admin_chat_id : option Z;
  requests : gmap string BookingRequest;
  user_requests : gmap Z (list string);
  booked_slots : gmap pyval (gmap pyval string);
  in_progress : gmap Z progress
}.

Definition set_requests (m : gmap string BookingRequest) (st : bot) : bot :=
  mk_bot (admin_chat_id st) m (user_requests st) (booked_slots st) (in_progress st).

Definition set_user_requests (m : gmap Z (list string)) (st : bot) : bot :=
  mk_bot (admin_chat_id st) (requests st) m (booked_slots st) (in_progress st).

Definition set_booked_slots (m : gmap pyval (gmap pyval string)) (st : bot) : bot :=
  mk_bot (admin_chat_id st) (requests st) (user_requests st) m (in_progress st).

Definition set_in_progress (m : gmap Z progress) (st : bot) : bot :=
  mk_bot (admin_chat_id st) (requests st) (user_requests st) (booked_slots st) m.

(** The bot after [__init__]. *)
Definition init (admin : option Z) : bot := mk_bot admin ∅ ∅ ∅ ∅.

(** ** Messages handed to the transport

    A text that embeds [request.summary()] carries the request instead of
    the rendered lines; the source renders it after the last update of the
    state in each handler that does. *)
Inductive reply :=
  | send_message (chat_id : Z) (text : string)
  | send_summary (chat_id : Z) (head : string) (r : BookingRequest) (tail : string)
  | send_slots (chat_id : Z) (text : string) (chosen_date : pyval) (slots : list time)
  | send_calendar (chat_id : Z)
  | send_categories (chat_id : Z) (text : string)
  | edit_message_text (text : string)
  | edit_summary (head : string) (r : BookingRequest)
  | edit_slots (chosen_date : pyval) (slots : list time)
  | edit_calendar
  | answer_callback_query (text : string).

Inductive exn := ValueError | IndexError | TypeError | AttributeError.

Inductive outcome :=
  | Done (st : bot) (out : list reply)
  | Raised (st : bot) (e : exn).

(** [l[i]] with Python's negative indices. *)
Definition py_index {A} (l : list A) (i : Z) : option A :=
  if bool_decide (0 ≤ i) then l !! Z.to_nat i
  else if bool_decide (- Z.of_nat (length l) ≤ i) then l !! Z.to_nat (Z.of_nat (length l) + i)
  else None.

(** [l.remove(x)] guarded by [x in l]: the first occurrence goes. *)
Fixpoint remove_first (x : string) (l : list string) : list string :=
  match l with
  | [] => []
  | y :: l' => if bool_decide (y = x) then l' else y :: remove_first x l'
  end.

(** ** Slot registry and booking store (lines 244-258) *)

Definition _available_slots (st : bot) (chosen_date : pyval) : list time :=
  let booked_for_day := default ∅ (booked_slots st !! chosen_date) in
  filter (λ slot, booked_for_day !! PTime slot = None) TIME_SLOTS.

Definition _reset_progress (st : bot) (user : Z) : bot :=
  set_in_progress (delete user (in_progress st)) st.

Definition _get_progress (st : bot) (user : Z) : option progress :=
  in_progress st !! user.

(** [if not progress]: no session, or an empty dictionary. *)
Definition live (o : option progress) : option progress :=
  match o with
  | Some p => if nonempty p then Some p else None
  | None => None
  end.

Definition _save_request (st : bot) (request : BookingRequest) : bot :=
  let st := set_requests (<[booking_id request := request]> (requests st)) st in
  let st := set_user_requests
    (<[user_id request :=
         default [] (user_requests st !! user_id request) ++ [booking_id request]]>
       (user_requests st)) st in
  let st := set_booked_slots
    (<[appointment_date request :=
         <[time_slot request := booking_id request]>
           (default ∅ (booked_slots st !! appointment_date request))]>
       (booked_slots st)) st in
  _reset_progress st (user_id request).

Definition _cancel_request (st : bot) (booking_id : string)
  : bot * option BookingRequest :=
  match requests st !! booking_id with
  | None => (st, None)
  | Some request =>
      let st := set_requests (delete booking_id (requests st)) st in
      let st :=
        match booked_slots st !! appointment_date request with
        | Some booked_for_day =>
            set_booked_slots
              (<[appointment_date request := delete (time_slot request) booked_for_day]>
                 (booked_slots st)) st
        | None => st
        end in
      let st :=
        match user_requests st !! user_id request with
        | Some user_list =>
            set_user_requests
              (<[user_id request := remove_first booking_id user_list]>
                 (user_requests st)) st
        | None => st
        end in
      (st, Some request)
  end.

(** ** Handlers of the button presses (lines 197-230) *)

Definition _notify_admin (st : bot) (request : BookingRequest) : list reply :=
  match admin_chat_id st with
  | Some admin =>
      if admin =? 0 then []
      else [send_summary admin "New booking request:" request ""]
  | None => []
  end.

Definition _finalize_booking (st : bot) (chat : Z) (data : string) : outcome :=
  match Str.split1 ":" data !! 1%nat with
  | None => Raised st IndexError
  | Some booking_id' =>
      let progress := live (_get_progress st chat) in
      match progress, progress ≫= preview with
      | Some progress, Some request =>
          if negb (bool_decide (booking_id request = booking_id'))
          then Done st [answer_callback_query "Booking preview not found."]
          else if negb (bool_decide
                 (time_slot request ∈ PTime <$> _available_slots st (appointment_date request)))
          then
            let progress := set_entry "stage" (PStr "time") progress in
            let st := set_in_progress (<[chat := progress]> (in_progress st)) st in
            Done st
              [answer_callback_query "Slot already taken. Choose another time.";
               send_slots chat "Select a new time:" (appointment_date request)
                 (_available_slots st (appointment_date request))]
          else
            (* line 209 updates the object the session holds as its preview *)
            let request := set_status "pending_admin" request in
            let st := set_in_progress
              (<[chat := set_preview request progress]> (in_progress st)) st in
            let st := _save_request st request in
            Done st
              (edit_message_text
                 "Booking submitted. The administrator will confirm your request."
               :: _notify_admin st request)
      | _, _ => Done st [answer_callback_query "Booking preview not found."]
      end
  end.

Definition _cancel_booking (st : bot) (data : string) : outcome :=
  match Str.split1 ":" data !! 1%nat with
  | None => Raised st IndexError
  | Some booking_id' =>
      let '(st, canceled) := _cancel_request st booking_id' in
      Done st
        [edit_message_text
           (match canceled with
            | Some _ => "Booking canceled."
            | None => "Nothing to cancel."
            end)]
  end.

Definition _admin_decision (st : bot) (data : string) : outcome :=
  match Str.split ":" data with
  | [_; decision; booking_id'] =>
      match requests st !! booking_id' with
      | None => Done st [answer_callback_query "Booking not found."]
      | Some request =>
          let request :=
            set_status
              (if bool_decide (decision = "accept") then "accepted" else "denied")
              request in
          let st := set_requests (<[booking_id' := request]> (requests st)) st in
          Done st
            [edit_summary ("Booking " +:+ decision +:+ "ed:") request;
             send_summary (user_id request)
               ("Your booking has been " +:+ decision +:+ "ed.") request ""]
      end
  | _ => Raised st ValueError
  end.

(** ** Conversation flow (lines 75-87, 116-196)

    The parsers of the standard library are taken as they come:
    [strptime] stands for [datetime.strptime(s, "%d/%m/%Y").date()],
    [date_fromisoformat] for [datetime.fromisoformat(s).date()] and
    [time_fromisoformat] for [time.fromisoformat(s)]; [None] is their
    [ValueError]. *)
Section Conversation.

Variable strptime : string → option date.
Variable date_fromisoformat : string → option date.
Variable time_fromisoformat : string → option time.

Definition _parse_required_date (raw : string) : parse_result :=
  match strptime (Str.strip raw) with
  | Some d => (true, PDate d, None)
  | None => (false, PNone, Some "Invalid format. Use DD/MM/YYYY.")
  end.

Definition _parse_optional_date (raw : string) : parse_result :=
  let cleaned := Str.strip raw in
  if bool_decide (cleaned = "") then (true, PNone, None)
  else match strptime cleaned with
       | Some d => (true, PDate d, None)
       | None => (false, PNone, Some "Invalid format. Use DD/MM/YYYY.")
       end.

Definition form_fields : list (string * string * (string → parse_result)) :=
  [("first_name", "Enter your first name:", _parse_required_text);
   ("middle_name", "Enter your middle name (leave blank if none):", _parse_optional_text);
   ("last_name", "Enter your last name:", _parse_required_text);
   ("dob", "Enter your date of birth [DD/MM/YYYY]:", _parse_required_date);
   ("license", "Driver's license number (optional, leave blank if none):", _parse_optional_text);
   ("license_issue", "License issue date [DD/MM/YYYY] (optional):", _parse_optional_date);
   ("license_expiry", "License expiry date [DD/MM/YYYY] (optional):", _parse_optional_date);
   ("suite", "Suite or unit number (leave blank if none):", _parse_optional_text);
   ("street_number", "Street number:", _parse_required_text);
   ("street_name", "Street name:", _parse_required_text);
   ("city", "City:", _parse_required_text);
   ("province", "Province:", _parse_required_text);
   ("postal", "Postal code (format A2A 1B4):", _parse_postal_code)].

Definition _start_booking_flow (st : bot) (user : Z) : outcome :=
  let st := set_in_progress
    (<[user := mk_progress {["stage" := PStr "category"]} None]> (in_progress st)) st in
  Done st [send_categories user "Select the type of appointment:"].

(** [today] is [date.today()] and [new_id] is [uuid.uuid4().hex] as read
    when the dataclass is built. *)
Definition _prompt_confirmation (today : date) (new_id : string)
    (st : bot) (chat : Z) : outcome :=
  match live (_get_progress st chat) with
  | None => Done st []
  | Some progress =>
      let identity := mk_identity
        (get_entry "first_name" (PStr "") progress)
        (get_entry "middle_name" PNone progress)
        (get_entry "last_name" (PStr "") progress)
        (get_entry "dob" (PDate today) progress)
        (get_entry "license" PNone progress)
        (get_entry "license_issue" PNone progress)
        (get_entry "license_expiry" PNone progress) in
      let address := mk_address
        (get_entry "suite" PNone progress)
        (get_entry "street_number" (PStr "") progress)
        (get_entry "street_name" (PStr "") progress)
        (get_entry "city" (PStr "") progress)
        (get_entry "province" (PStr "") progress)
        (get_entry "postal" (PStr "") progress) in
      let request := mk_request chat
        (get_entry "category" (PStr "") progress)
        (get_entry "date" PNone progress)
        (get_entry "time" PNone progress)
        identity address "pending_user" new_id in
      let st := set_in_progress
        (<[chat := set_preview request progress]> (in_progress st)) st in
      Done st [send_summary chat "" request "Confirm or cancel?"]
  end.

(** [int(progress.get("field_index", 0))]: the key is only ever written
    with an [int] (lines 171 and 184); on any other object the conversion
    is taken to raise. *)
Definition int_of (v : pyval) : option Z :=
  match v with
  | PInt n => Some n
  | _ => None
  end.

Definition _handle_form_field (today : date) (new_id : string)
    (st : bot) (chat : Z) (text : string) : outcome :=
  match _get_progress st chat with
  | None => Raised st AttributeError
  | Some progress =>
      match int_of (get_entry "field_index" (PInt 0) progress) with
      | None => Raised st TypeError
      | Some index =>
          match py_index form_fields index with
          | None => Raised st IndexError
          | Some (key, prompt, parser) =>
              let '(valid, value, error) := parser text in
              if negb valid then Done st [send_message chat (or_else error prompt)]
              else
                let progress := set_entry key value progress in
                let st := set_in_progress (<[chat := progress]> (in_progress st)) st in
                let index := index + 1 in
                if bool_decide (Z.of_nat (length form_fields) ≤ index)
                then _prompt_confirmation today new_id st chat
                else
                  let progress := set_entry "field_index" (PInt index) progress in
                  let st := set_in_progress (<[chat := progress]> (in_progress st)) st in
                  match py_index form_fields index with
                  | Some (_, prompt', _) => Done st [send_message chat prompt']
                  | None => Raised st IndexError
                  end
          end
      end
  end.

Definition _handle_category (st : bot) (chat : Z) (text : string) : outcome :=
  if negb (bool_decide (text ∈ CATEGORIES))
  then Done st [send_message chat "Please select one of the listed categories."]
  else match _get_progress st chat with
       | None => Raised st TypeError
       | Some progress =>
           let progress := set_entry "category" (PStr text) progress in
           let progress := set_entry "stage" (PStr "calendar") progress in
           let st := set_in_progress (<[chat := progress]> (in_progress st)) st in
           Done st [send_calendar chat]
       end.

Definition _route_message (today : date) (new_id : string)
    (st : bot) (chat : Z) (text : string) : outcome :=
  match live (_get_progress st chat) with
  | None => Done st [send_message chat "Use the menu to begin a booking or view FAQs."]
  | Some progress =>
      if bool_decide (get_entry "stage" PNone progress = PStr "category")
      then _handle_category st chat text
      else if bool_decide (get_entry "stage" PNone progress = PStr "fields")
      then _handle_form_field today new_id st chat text
      else Done st [send_message chat "Please follow the prompts in order."]
  end.

(** [result] and [key] are what the calendar widget's [process] returns. *)
Definition _handle_calendar_selection (st : bot) (chat : Z)
    (result : option date) (key : bool) : outcome :=
  match result with
  | None => if key then Done st [edit_calendar] else Done st []
  | Some result =>
      match live (_get_progress st chat) with
      | None => Done st []
      | Some progress =>
          let progress := set_entry "date" (PDate result) progress in
          let progress := set_entry "stage" (PStr "time") progress in
          let st := set_in_progress (<[chat := progress]> (in_progress st)) st in
          Done st [edit_slots (PDate result) (_available_slots st (PDate result))]
      end
  end.

Definition _handle_time_selection (st : bot) (chat : Z) (data : string) : outcome :=
  if bool_decide (data = "slot:none")
  then Done st [answer_callback_query "No slots for that date. Choose another."]
  else match Str.split ":" data with
       | [_; day'; slot_raw] =>
           match date_fromisoformat day', time_fromisoformat slot_raw with
           | Some chosen_date, Some slot_time =>
               if negb (bool_decide (slot_time ∈ _available_slots st (PDate chosen_date)))
               then Done st
                      [answer_callback_query "Slot already booked. Please choose another.";
                       edit_slots (PDate chosen_date) (_available_slots st (PDate chosen_date))]
               else match live (_get_progress st chat) with
                    | None => Done st []
                    | Some progress =>
                        let progress := set_entry "time" (PTime slot_time) progress in
                        let progress := set_entry "stage" (PStr "fields") progress in
                        let progress := set_entry "field_index" (PInt 0) progress in
                        let st := set_in_progress (<[chat := progress]> (in_progress st)) st in
                        match py_index form_fields 0 with
                        | Some (_, prompt, _) =>
                            Done st
                              [answer_callback_query "Time slot selected.";
                               send_message chat prompt]
                        | None => Raised st IndexError
                        end
                    end
           | _, _ => Raised st ValueError
           end
       | _ => Raised st ValueError
       end.

(** ** Events (lines 89-115)

    One constructor per registered handler that touches the state.  A
    text message carries the clock and the identifier that the handler
    would draw if it came to build a draft. *)
Inductive event :=
  | Start (chat : Z)
  | CreateBooking (chat : Z)
  | TextMessage (chat : Z) (text : string) (today : date) (new_id : string)
  | CalendarPress (chat : Z) (result : option date) (key : bool)
  | SlotPress (chat : Z) (data : string)
  | ConfirmPress (chat : Z) (data : string)
  | CancelPress (data : string)
  | AdminPress (data : string).

Definition handle (ev : event) (st : bot) : outcome :=
  match ev with
  | Start chat =>
      (* [_send_main_menu] is not a method of the class: the call raises
         once the session is reset *)
      Raised (_reset_progress st chat) AttributeError
  | CreateBooking chat => _start_booking_flow st chat
  | TextMessage chat text today new_id => _route_message today new_id st chat text
  | CalendarPress chat result key => _handle_calendar_selection st chat result key
  | SlotPress chat data => _handle_time_selection st chat data
  | ConfirmPress chat data => _finalize_booking st chat data
  | CancelPress data => _cancel_booking st data
  | AdminPress data => _admin_decision st data
  end.

(** The state an outcome leaves behind. *)
Definition state_of (o : outcome) : bot :=
  match o with
  | Done st _ => st
  | Raised st _ => st
  end.

(** [uuid4] identifiers are taken to be fresh: [new_id] names no stored
    booking and no draft of any session. *)
Definition fresh_id (st : bot) (new_id : string) : Prop :=
  requests st !! new_id = None
  ∧ map_Forall (λ _ p, match preview p with
                       | Some r => booking_id r ≠ new_id
                       | None => True
                       end) (in_progress st).

Definition event_ok (st : bot) (ev : event) : Prop :=
  match ev with
  | TextMessage _ _ _ new_id => fresh_id st new_id
  | _ => True
  end.

Inductive reachable : bot → Prop :=
  | reachable_init admin : reachable (init admin)
  | reachable_step st ev :
      reachable st → event_ok st ev → reachable (state_of (handle ev st)).

(** The state after a run of events. *)
Fixpoint run (evs : list event) (st : bot) : bot :=
  match evs with
  | [] => st
  | ev :: evs =>
      run evs (state_of (handle ev st))
  end.

(** Each event of the run draws a fresh identifier. *)
Fixpoint run_ok (evs : list event) (st : bot) : Prop :=
  match evs with
  | [] => True
  | ev :: evs =>
      event_ok st ev
      ∧ run_ok evs (state_of (handle ev st))
  end.

(** The event is a press of a cancel button for booking [bid]. *)
Definition cancels (bid : string) (ev : event) : Prop :=
  match ev with
  | CancelPress data => Str.split1 ":" data !! 1%nat = Some bid
  | _ => False
  end.

End Conversation.

(** ** Consistency of the store *)

(** The booking that holds [(d, t)] in the registry, if any. *)
Definition holder (st : bot) (d t : pyval) : option string :=
  booked_slots st !! d ≫= (.!! t).

Record consistent (st : bot) : Prop := mk_consistent {
  (** a booking is stored under its own identifier *)
  stored_id : ∀ bid r, requests st !! bid = Some r → booking_id r = bid;
  (** a stored booking holds its slot, one of the enumeration *)
  stored_slot : ∀ bid r, requests st !! bid = Some r →
    (∃ t, time_slot r = PTime t ∧ t ∈ TIME_SLOTS)
    ∧ holder st (appointment_date r) (time_slot r) = Some bid;
  (** a stored booking is listed once under its user *)
  stored_listed : ∀ bid r, requests st !! bid = Some r →
    ∃ l, user_requests st !! user_id r = Some l ∧ bid ∈ l;
  listed_stored : ∀ u l, user_requests st !! u = Some l →
    NoDup l ∧ ∀ bid, bid ∈ l → ∃ r, requests st !! bid = Some r ∧ user_id r = u;
  (** a reserved pair is held by a stored booking for that pair *)
  held_stored : ∀ d t bid, holder st d t = Some bid →
    ∃ r, requests st !! bid = Some r ∧ appointment_date r = d ∧ time_slot r = t;
  (** a draft belongs to its session and is not stored yet *)
  draft_owner : ∀ u p r, in_progress st !! u = Some p → preview p = Some r →
    user_id r = u ∧ requests st !! booking_id r = None;
  (** drafts of different sessions have different identifiers *)
  draft_ids : ∀ u1 u2 p1 p2 r1 r2,
    in_progress st !! u1 = Some p1 → preview p1 = Some r1 →
    in_progress st !! u2 = Some p2 → preview p2 = Some r2 →
    booking_id r1 = booking_id r2 → u1 = u2
}.

(** Following the specification's words: the slots recorded as reserved
    for a date, and the enumeration minus those. *)
Definition reserved_slots (st : bot) (d : pyval) : list time :=
  omap (λ kv, match kv.1 with PTime t => Some t | _ => None end)
    (map_to_list (default ∅ (booked_slots st !! d))).

Definition enumeration_minus_reserved (st : bot) (d : pyval) : list time :=
  list_difference TIME_SLOTS (reserved_slots st d).

(** Following the specification's words: the cleaned string has exactly
    7 characters, its 4th character is a space and all its other
    characters are alphanumeric. *)
Definition postal_format (cleaned : string) : Prop :=
  Str.len cleaned = 7%nat
  ∧ ∀ (i : nat) c, String.get i cleaned = Some c →
      if bool_decide (i = 3%nat) then c = " "%char
      else Str.isalnum_char c = true.

(** The effects of an accepted confirm of the draft [r] of session
    [chat]: the pair is reserved for the booking, the booking is stored
    with status ["pending_admin"] and listed last under its user, and the
    session is gone. *)
Definition confirmed (st st' : bot) (chat : Z) (r : BookingRequest) : Prop :=
  holder st' (appointment_date r) (time_slot r) = Some (booking_id r)
  ∧ requests st' !! booking_id r = Some (set_status "pending_admin" r)
  ∧ user_requests st' !! user_id r
    = Some (default [] (user_requests st !! user_id r) ++ [booking_id r])
  ∧ in_progress st' !! chat = None.

(** The effects of a rejected confirm: registry and store are as before,
    and so are the sessions but for the stage of session [chat], which is
    ["time"]; its draft is as it was. *)
Definition sent_back (st st' : bot) (chat : Z) (p : progress) : Prop :=
  requests st' = requests st
  ∧ user_requests st' = user_requests st
  ∧ booked_slots st' = booked_slots st
  ∧ ∃ p', in_progress st' = <[chat := p']> (in_progress st)
          ∧ entries p' = <["stage" := PStr "time"]> (entries p)
          ∧ preview p' = preview p.

(** The state a successful cancel leaves, component by component. *)
Definition canceled (st : bot) (bid : string) (r : BookingRequest) : bot :=
  mk_bot (admin_chat_id st)
    (delete bid (requests st))
    (match user_requests st !! user_id r with
     | Some user_list => <[user_id r := remove_first bid user_list]> (user_requests st)
     | None => user_requests st
     end)
    (match booked_slots st !! appointment_date r with
     | Some booked_for_day =>
         <[appointment_date r := delete (time_slot r) booked_for_day]> (booked_slots st)
     | None => booked_slots st
     end)
    (in_progress st).

(** The status a decision gives. *)
Definition verdict (decision : string) : string :=
  if bool_decide (decision = "accept") then "accepted" else "denied".

(** A status an admin decision leaves. *)
Definition decided (s : string) : Prop := s = "accepted" ∨ s = "denied".

(** The state after a run of admin decisions. *)
Definition admin_decisions (datas : list string) (st : bot) : bot :=
  foldl (λ st data, state_of (_admin_decision st data)) st datas.

(** ** A sample conversation

    The parsers know the strings of the sample; [time.fromisoformat("10")]
    is [time(10, 0)]. *)
Definition sample_strptime (s : string) : option date :=
  if bool_decide (s = "01/02/1990") then Some (mk_date 1990 2 1) else None.

Definition sample_date_fromisoformat (s : string) : option date :=
  if bool_decide (s = "2024-06-10") then Some (mk_date 2024 6 10) else None.

Definition sample_time_fromisoformat (s : string) : option time :=
  if bool_decide (s = "10") then Some (mk_time 10 0 0 0) else None.

Definition sample_handle : event → bot → outcome :=
  handle sample_strptime sample_date_fromisoformat sample_time_fromisoformat.

Definition sample_run : list event → bot → bot :=
  run sample_strptime sample_date_fromisoformat sample_time_fromisoformat.

Definition sample_today : date := mk_date 2024 6 1.

(** User [u] picks a category, 10 June 2024 and the 10:00 slot. *)
Definition sample_choices (u : Z) (bid : string) : list event :=
  [CreateBooking u;
   TextMessage u "New registration" sample_today bid;
   CalendarPress u (Some (mk_date 2024 6 10)) false;
   SlotPress u "slot:2024-06-10:10"].

(** User [u] answers the first twelve fields of the form. *)
Definition sample_answers (u : Z) (bid : string) : list event :=
  (λ text, TextMessage u text sample_today bid)
    <$> ["Ann"; ""; "Lee"; "01/02/1990"; ""; ""; ""; ""; "12"; "Main St";
         "Ottawa"; "ON"].

(** The whole flow up to the draft, which gets the identifier [bid]. *)
Definition sample_flow (u : Z) (bid : string) : list event :=
  sample_choices u bid ++ sample_answers u bid
  ++ [TextMessage u "a2a 1b4" sample_today bid].

Definition sample_draft (u : Z) (bid : string) : BookingRequest :=
  mk_request u (PStr "New registration") (PDate (mk_date 2024 6 10))
    (PTime (mk_time 10 0 0 0))
    (mk_identity (PStr "Ann") PNone (PStr "Lee") (PDate (mk_date 1990 2 1))
       PNone PNone PNone)
    (mk_address PNone (PStr "12") (PStr "Main St") (PStr "Ottawa") (PStr "ON")
       (PStr "A2A 1B4"))
    "pending_user" bid.

Definition sample_session (u : Z) (bid : string) : progress :=
  mk_progress
    (list_to_map
       [("stage", PStr "fields"); ("category", PStr "New registration");
        ("date", PDate (mk_date 2024 6 10)); ("time", PTime (mk_time 10 0 0 0));
        ("field_index", PInt 12);
        ("first_name", PStr "Ann"); ("middle_name", PNone);
        ("last_name", PStr "Lee"); ("dob", PDate (mk_date 1990 2 1));
        ("license", PNone); ("license_issue", PNone); ("license_expiry", PNone);
        ("suite", PNone); ("street_number", PStr "12");
        ("street_name", PStr "Main St"); ("city", PStr "Ottawa");
        ("province", PStr "ON"); ("postal", PStr "A2A 1B4")])
    (Some (sample_draft u bid)).

(** User 7 has chosen a slot and is asked for the first name. *)
Definition at_first_field : bot :=
  sample_run (sample_choices 7 "b1") (init (Some 99)).

(** User 7 is asked for the postal code, the last field. *)
Definition at_last_field : bot :=
  sample_run (sample_answers 7 "b1") at_first_field.

(** Users 7 and 8 each hold a draft for the same date and slot. *)
Definition two_drafts : bot :=
  sample_run (sample_flow 7 "b1" ++ sample_flow 8 "b2") (init (Some 99)).

(** User 7 has confirmed. *)
Definition one_booking : bot :=
  state_of (sample_handle (ConfirmPress 7 "confirm:b1") two_drafts).

(** ** Slot buttons and the list of bookings (lines 152-158, 231-243) *)

(** [str(n)] for a natural number. *)
Definition digit (n : nat) : ascii := ascii_of_nat (48 + n mod 10)%nat.

Fixpoint decimal_go (fuel n : nat) (acc : string) : string :=
  match fuel with
  | O => acc
  | S fuel =>
      if (n <? 10)%nat then String (digit n) acc
      else decimal_go fuel (n / 10)%nat (String (digit n) acc)
  end.

Definition decimal (n : nat) : string := decimal_go (S n) n EmptyString.

Fixpoint zeros (k : nat) : string :=
  match k with
  | O => EmptyString
  | S k => String "0" (zeros k)
  end.

(** ["%0wd" % n]: at least [w] digits. *)
Definition padded (w n : nat) : string :=
  zeros (w - String.length (decimal n)) +:+ decimal n.

(** [date.isoformat()] and [time.isoformat()] of a naive time. *)
Definition isoformat_date (d : date) : string :=
  padded 4 (year d) +:+ "-" +:+ padded 2 (month d) +:+ "-" +:+ padded 2 (day d).

Definition isoformat_time (t : time) : string :=
  padded 2 (hour t) +:+ ":" +:+ padded 2 (minute t) +:+ ":" +:+ padded 2 (second t)
  +:+ (if (microsecond t =? 0)%nat then EmptyString
       else "." +:+ padded 6 (microsecond t)).

(** [v.isoformat()]: only dates and times have the method. *)
Definition isoformat (v : pyval) : option string :=
  match v with
  | PDate d => Some (isoformat_date d)
  | PTime t => Some (isoformat_time t)
  | _ => None
  end.

(** An inline button.  A label rendered with [strftime] carries the
    object it renders. *)
Inductive label :=
  | slot_label (slot : time)
  | cancel_label (r : BookingRequest)
  | text_label (s : string).

Record button := Button {
  button_label : label;
  callback_data : string
}.

(** [None] is the [AttributeError] of [chosen_date.isoformat()]. *)
Definition _time_slots_markup (st : bot) (chosen_date : pyval)
  : option (list button) :=
  match _available_slots st chosen_date with
  | [] => Some [Button (text_label "No slots available. Pick another date.") "slot:none"]
  | slots =>
      match isoformat chosen_date with
      | Some day' =>
          Some ((λ slot, Button (slot_label slot)
                           ("slot:" +:+ day' +:+ ":" +:+ isoformat_time slot))
                  <$> slots)
      | None => None
      end
  end.

(** What [_send_user_bookings] sends: the text for a user without
    bookings, or one line and one cancel button per booking found. *)
Inductive bookings_message :=
  | no_bookings (text : string)
  | bookings_list (lines : list BookingRequest) (buttons : list button).

Definition _send_user_bookings (st : bot) (user : Z) : bookings_message :=
  let ids := default [] (user_requests st !! user) in
  match ids with
  | [] => no_bookings "No bookings yet. Tap 'Create a booking' to start."
  | _ =>
      let found :=
        omap (λ booking_id', (λ request, (booking_id', request))
                               <$> requests st !! booking_id') ids in
      bookings_list (found.*2)
        ((λ '(booking_id', request),
            Button (cancel_label request) ("cancel:" +:+ booking_id')) <$> found)
  end.

(** The request that [_prompt_confirmation] builds from a session. *)
Definition draft_of (today : date) (new_id : string) (chat : Z)
    (progress : progress) : BookingRequest :=
  mk_request chat
    (get_entry "category" (PStr "") progress)
    (get_entry "date" PNone progress)
    (get_entry "time" PNone progress)
    (mk_identity
       (get_entry "first_name" (PStr "") progress)
       (get_entry "middle_name" PNone progress)
       (get_entry "last_name" (PStr "") progress)
       (get_entry "dob" (PDate today) progress)
       (get_entry "license" PNone progress)
       (get_entry "license_issue" PNone progress)
       (get_entry "license_expiry" PNone progress))
    (mk_address
       (get_entry "suite" PNone progress)
       (get_entry "street_number" (PStr "") progress)
       (get_entry "street_name" (PStr "") progress)
       (get_entry "city" (PStr "") progress)
       (get_entry "province" (PStr "") progress)
       (get_entry "postal" (PStr "") progress))
    "pending_user" new_id.

(** Texts sent one after the other to the form handler. *)
Definition fill_form (strptime : string → option date) (today : date)
    (new_id : string) (chat : Z) (texts : list string) (st : bot) : bot :=
  foldl (λ st text, state_of (_handle_form_field strptime today new_id st chat text))
    st texts.

(** The store of two states is the same. *)
Definition same_store (st st' : bot) : Prop :=
  requests st' = requests st
  ∧ user_requests st' = user_requests st
  ∧ booked_slots st' = booked_slots st.

(** The events that only concern the conversation. *)
Definition conversational (ev : event) : Prop :=
  match ev with
  | ConfirmPress _ _ | CancelPress _ | AdminPress _ => False
  | _ => True
  end.

(** What the flow keeps true of a session: a known stage; a field index
    within the form; a chosen time that is a slot of the enumeration, also
    in the draft; in the fields stage the index and the time are there. *)
Definition session_ok (p : progress) : Prop :=
  (∃ s, entries p !! "stage" = Some (PStr s)
        ∧ s ∈ ["category"; "calendar"; "time"; "fields"])
  ∧ (∀ v, entries p !! "field_index" = Some v → ∃ i, v = PInt i ∧ 0 ≤ i ≤ 12)
  ∧ (∀ v, entries p !! "time" = Some v → ∃ t, v = PTime t ∧ t ∈ TIME_SLOTS)
  ∧ (entries p !! "stage" = Some (PStr "fields") →
     is_Some (entries p !! "field_index") ∧ is_Some (entries p !! "time"))
  ∧ (∀ r, preview p = Some r → ∃ t, time_slot r = PTime t ∧ t ∈ TIME_SLOTS).

(** Freshness along a run is decidable (used to check sample runs). *)
Section Decide.

Variable strptime : string → option date.
Variable date_fromisoformat : string → option date.
Variable time_fromisoformat : string → option time.

#[global] Instance fresh_id_dec st new_id : Decision (fresh_id st new_id).
Proof.
  unfold fresh_id. apply and_dec; [apply _|].
  apply map_Forall_dec. intros u p. destruct (preview p); apply _.
Defined.

#[global] Instance event_ok_dec st ev : Decision (event_ok st ev).
Proof. destruct ev; apply _. Defined.

#[global] Instance run_ok_dec evs st :
  Decision (run_ok strptime date_fromisoformat time_fromisoformat evs st).
Proof. revert st. induction evs as [|ev evs IH]; intros st; simpl; apply _. Defined.

End Decide.

(** * Slot registry *)

Lemma holder_day st d t :
  holder st d t = default ∅ (booked_slots st !! d) !! t.
Proof. unfold holder. by destruct (booked_slots st !! d). Qed.

Lemma reserved_slots_elem st d t :
  t ∈ reserved_slots st d ↔ is_Some (holder st d (PTime t)).
Proof.
  rewrite holder_day. unfold reserved_slots.
  rewrite list_elem_of_omap. split.
  - intros [[k v] [Hin Hk]]. apply elem_of_map_to_list in Hin.
    simpl in Hk. destruct k; simplify_eq. eauto.
  - intros [v Hv]. exists (PTime t, v). split; [|done].
    by apply elem_of_map_to_list.
Qed.

Lemma available_slots_elem st d t :
  t ∈ _available_slots st d ↔ t ∈ TIME_SLOTS ∧ holder st d (PTime t) = None.
Proof.
  unfold _available_slots. rewrite list_elem_of_filter, holder_day. tauto.
Qed.

Lemma filter_as_difference {A} `{EqDecision A} (P : A → Prop)
    `{∀ x, Decision (P x)} (l k : list A) :
  (∀ x, x ∈ l → (P x ↔ x ∉ k)) → filter P l = list_difference l k.
Proof.
  induction l as [|x l IH]; intros HP; [done|].
  rewrite filter_cons. simpl.
  assert (P x ↔ x ∉ k) as Hx by (apply HP; left).
  rewrite IH by (intros y Hy; apply HP; by right).
  destruct (decide (P x)) as [HPx|HPx], (decide_rel elem_of x k) as [Hk|Hk];
    tauto.
Qed.

(** C3.  For every date [d], [_available_slots] returns the five-element
    slot enumeration minus the slots recorded as reserved for [d], in the
    order of the enumeration: it is the list difference of the
    specification, its members are exactly the unreserved slots of the
    enumeration, and it is a subsequence of the enumeration. *)
Theorem available_slots_exact st d :
  length TIME_SLOTS = 5%nat
  ∧ NoDup TIME_SLOTS
  ∧ _available_slots st d = enumeration_minus_reserved st d
  ∧ (∀ t, t ∈ _available_slots st d ↔
          t ∈ TIME_SLOTS ∧ t ∉ reserved_slots st d)
  ∧ sublist (_available_slots st d) TIME_SLOTS.
Proof.
  split_and!.
  - reflexivity.
  - apply (bool_decide_unpack (NoDup TIME_SLOTS)). by vm_compute.
  - unfold _available_slots, enumeration_minus_reserved.
    apply filter_as_difference. intros t _.
    rewrite reserved_slots_elem, holder_day, <-eq_None_not_Some. done.
  - intros t. rewrite available_slots_elem, reserved_slots_elem.
    by rewrite eq_None_not_Some.
  - apply sublist_filter.
Qed.

(** * Field validators *)

Lemma alnum_not_space c :
  Str.isalnum_char c = true → bool_decide (c = " "%char) = false.
Proof.
  intros Hc. apply bool_decide_eq_false. intros ->. by vm_compute in Hc.
Qed.

(** What the specification asks for is accepted ... *)
Lemma postal_format_accepted raw :
  postal_format (Str.upper (Str.strip raw)) →
  _parse_postal_code raw
  = (true, PStr (Str.upper (Str.strip raw)), Some "Please use the format A2A 1B4.").
Proof.
  unfold _parse_postal_code. generalize (Str.upper (Str.strip raw)).
  intros s [Hlen Hget]. unfold Str.len in Hlen.
  destruct s as [|c0 [|c1 [|c2 [|c3 [|c4 [|c5 [|c6 [|c7 s]]]]]]]];
    simplify_eq/=.
  pose proof (Hget 0%nat _ eq_refl) as H0.
  pose proof (Hget 1%nat _ eq_refl) as H1.
  pose proof (Hget 2%nat _ eq_refl) as H2.
  pose proof (Hget 3%nat _ eq_refl) as H3.
  pose proof (Hget 4%nat _ eq_refl) as H4.
  pose proof (Hget 5%nat _ eq_refl) as H5.
  pose proof (Hget 6%nat _ eq_refl) as H6.
  simpl in *. subst c3.
  unfold Str.isalnum. simpl.
  rewrite !alnum_not_space by done. simpl.
  rewrite H0, H1, H2, H4, H5, H6. done.
Qed.

(** ... and a rejected input yields no value and the format hint. *)
Lemma postal_code_rejected raw :
  (_parse_postal_code raw).1.1 = false →
  _parse_postal_code raw = (false, PNone, Some "Please use the format A2A 1B4.").
Proof. unfold _parse_postal_code. simpl. by intros ->. Qed.

(** C8.  The validator accepts ["A A 1B4"]: after trimming and
    uppercasing it has 7 characters and a space in 4th position, but its
    2nd character is a space too, which is not alphanumeric, so the
    format of the specification does not hold of it. *)
Theorem postal_code_inner_space_accepted :
  _parse_postal_code "A A 1B4"
  = (true, PStr "A A 1B4", Some "Please use the format A2A 1B4.")
  ∧ Str.upper (Str.strip "A A 1B4") = "A A 1B4"
  ∧ ¬ postal_format "A A 1B4".
Proof.
  split_and!; [reflexivity..|].
  intros [_ Hget]. specialize (Hget 1%nat " "%char eq_refl). done.
Qed.

(** C9, as stated, fails: ["AAAA BBB"] is not valid. *)
Lemma postal_examples_as_stated_fail :
  ¬ ((_parse_postal_code "A2A 1B4").1.1 = true
     ∧ (_parse_postal_code "A2A1B4").1.1 = false
     ∧ (_parse_postal_code "AAAA BBB").1.1 = true).
Proof. intros (_ & _ & H). by vm_compute in H. Qed.

(** C9, amended.  ["A2A 1B4"] is valid and ["A2A1B4"] is not;
    ["AAAA BBB"] has 8 characters and an ["A"] in 4th position and is not
    valid; the 7-character ["AAA BBB"] is valid: only length, space and
    alphanumeric characters are checked, not an alternation of letters
    and digits. *)
Theorem postal_examples :
  _parse_postal_code "A2A 1B4"
  = (true, PStr "A2A 1B4", Some "Please use the format A2A 1B4.")
  ∧ _parse_postal_code "A2A1B4"
    = (false, PNone, Some "Please use the format A2A 1B4.")
  ∧ Str.len "AAAA BBB" = 8%nat
  ∧ String.get 3 "AAAA BBB" = Some "A"%char
  ∧ _parse_postal_code "AAAA BBB"
    = (false, PNone, Some "Please use the format A2A 1B4.")
  ∧ _parse_postal_code "AAA BBB"
    = (true, PStr "AAA BBB", Some "Please use the format A2A 1B4.").
Proof. split_and!; reflexivity. Qed.

(** * Form stage *)

Section Form.

Variable strptime : string → option date.

Lemma form_fields_length : length (form_fields strptime) = 13%nat.
Proof. reflexivity. Qed.

Lemma form_fields_last :
  py_index (form_fields strptime) 12
  = Some ("postal", "Postal code (format A2A 1B4):", _parse_postal_code).
Proof. reflexivity. Qed.

(** The keys of the form differ from the keys the flow itself writes. *)
Lemma form_keys_reserved :
  Forall (λ f, f.1.1 ∉ ["stage"; "category"; "date"; "time"; "field_index"; "preview"])
    (form_fields strptime).
Proof. repeat constructor; by apply (bool_decide_unpack _). Qed.

Lemma live_Some p : nonempty p = true → live (Some p) = Some p.
Proof. unfold live. by intros ->. Qed.

Lemma nonempty_entry p k v : entries p !! k = Some v → nonempty p = true.
Proof.
  intros Hk. unfold nonempty. apply orb_true_iff. left.
  apply negb_true_iff, bool_decide_eq_false. intros He.
  rewrite He in Hk. by rewrite lookup_empty in Hk.
Qed.

(** A text reaches the form handler exactly when the stage is ["fields"]. *)
Lemma route_fields today new_id st chat p text :
  in_progress st !! chat = Some p →
  get_entry "stage" PNone p = PStr "fields" →
  _route_message strptime today new_id st chat text
  = _handle_form_field strptime today new_id st chat text.
Proof.
  intros Hp Hstage. unfold _route_message, _get_progress.
  rewrite Hp, (live_Some p).
  - by rewrite Hstage.
  - unfold get_entry in Hstage.
    destruct (entries p !! "stage") as [v|] eqn:Hv; [|done].
    by apply (nonempty_entry p "stage" v).
Qed.

(** C7.  In a session in the fields stage at field index [i], a raw input
    that the validator of field [i] rejects leaves the whole state as it
    was: the handler only sends the error (or the prompt).  So the
    session, with its field index [i] and every value accumulated so far,
    is unchanged. *)
Theorem rejected_input_keeps_session today new_id st chat p i key prompt parser raw v e :
  in_progress st !! chat = Some p →
  get_entry "stage" PNone p = PStr "fields" →
  get_entry "field_index" (PInt 0) p = PInt i →
  py_index (form_fields strptime) i = Some (key, prompt, parser) →
  parser raw = (false, v, e) →
  _route_message strptime today new_id st chat raw
  = Done st [send_message chat (or_else e prompt)]
  ∧ in_progress (state_of (_route_message strptime today new_id st chat raw)) !! chat
    = Some p.
Proof.
  intros Hp Hstage Hi Hfield Hparse.
  rewrite (route_fields _ _ _ _ p) by done.
  unfold _handle_form_field, _get_progress.
  rewrite Hp, Hi. simpl. rewrite Hfield, Hparse. done.
Qed.

(** An accepted answer to one of the first twelve fields is stored under
    the key of the field and the index moves to the next field. *)
Lemma accepted_input_advances today new_id st chat p i key prompt parser raw v e :
  in_progress st !! chat = Some p →
  entries p !! "field_index" = Some (PInt i) →
  0 ≤ i < 12 →
  py_index (form_fields strptime) i = Some (key, prompt, parser) →
  parser raw = (true, v, e) →
  ∃ out,
    _handle_form_field strptime today new_id st chat raw
    = Done (set_in_progress
              (<[chat := set_entry "field_index" (PInt (i + 1)) (set_entry key v p)]>
                 (in_progress st)) st) out.
Proof.
  intros Hp Hi Hrange Hfield Hparse.
  unfold _handle_form_field, _get_progress, get_entry.
  rewrite Hp, Hi. simpl. rewrite Hfield, Hparse. simpl.
  rewrite bool_decide_eq_false_2 by lia.
  destruct (py_index (form_fields strptime) (i + 1)) as [[[k' p'] f']|] eqn:Hnext.
  - eexists. f_equal. unfold set_in_progress. simpl.
    by rewrite insert_insert_eq.
  - exfalso. unfold py_index in Hnext.
    rewrite bool_decide_eq_true_2 in Hnext by lia.
    apply lookup_ge_None in Hnext. rewrite form_fields_length in Hnext. lia.
Qed.

(** An accepted answer to the last field is stored and the draft is
    built with status ["pending_user"], but neither ["stage"] nor
    ["field_index"] is written: the session stays in the fields stage at
    the index of the last field. *)
Lemma last_field_builds_draft today new_id st chat p raw v e :
  in_progress st !! chat = Some p →
  entries p !! "field_index" = Some (PInt 12) →
  _parse_postal_code raw = (true, v, e) →
  ∃ r p',
    _handle_form_field strptime today new_id st chat raw
    = Done (set_in_progress (<[chat := p']> (in_progress st)) st)
        [send_summary chat "" r "Confirm or cancel?"]
    ∧ p' = set_preview r (set_entry "postal" v p)
    ∧ status r = "pending_user" ∧ booking_id r = new_id ∧ user_id r = chat
    ∧ entries p' !! "stage" = entries p !! "stage"
    ∧ entries p' !! "field_index" = Some (PInt 12).
Proof.
  intros Hp Hi Hparse.
  unfold _handle_form_field, _get_progress, get_entry.
  rewrite Hp, Hi. cbn [default from_option id int_of].
  rewrite form_fields_last, Hparse.
  cbn [negb]. rewrite bool_decide_eq_true_2 by (rewrite form_fields_length; lia).
  unfold _prompt_confirmation, _get_progress. simpl.
  rewrite lookup_insert_eq.
  rewrite live_Some by (apply (nonempty_entry _ "postal" v); simpl; apply lookup_insert_eq).
  eexists _, _. split_and!; [|reflexivity|..].
  - unfold set_in_progress. simpl. by rewrite insert_insert_eq.
  - done.
  - done.
  - done.
  - simpl. by rewrite lookup_insert_ne.
  - simpl. by rewrite lookup_insert_ne.
Qed.

End Form.

(** * Callback payloads *)

Lemma split_free sep s : Str.free_of sep s → Str.split sep s = [s].
Proof.
  unfold Str.free_of. induction s as [|a s IH]; simpl; [done|].
  intros [Ha Hs]%andb_true_iff. apply negb_true_iff in Ha.
  rewrite Ha, IH by done. done.
Qed.

Lemma split_app sep s rest :
  Str.free_of sep s →
  Str.split sep (s +:+ String sep rest) = s :: Str.split sep rest.
Proof.
  unfold Str.free_of. induction s as [|a s IH]; simpl.
  - intros _. by rewrite bool_decide_eq_true_2.
  - intros [Ha Hs]%andb_true_iff. apply negb_true_iff in Ha.
    change (String a s +:+ String sep rest) with (String a (s +:+ String sep rest)).
    simpl. rewrite Ha, IH by done. done.
Qed.

Lemma split_admin decision bid :
  Str.free_of ":" decision → Str.free_of ":" bid →
  Str.split ":" ("admin:" +:+ decision +:+ ":" +:+ bid) = ["admin"; decision; bid].
Proof.
  intros Hd Hb.
  change ("admin:" +:+ decision +:+ ":" +:+ bid)
    with ("admin" +:+ String ":" (decision +:+ String ":" bid)).
  rewrite split_app by done. rewrite split_app by done.
  by rewrite split_free.
Qed.

Lemma split1_confirm bid : Str.split1 ":" ("confirm:" +:+ bid) !! 1%nat = Some bid.
Proof. reflexivity. Qed.

Lemma split1_cancel bid : Str.split1 ":" ("cancel:" +:+ bid) !! 1%nat = Some bid.
Proof. reflexivity. Qed.

(** The payload the bot puts on a slot button (line 156) is
    ["slot:" + date.isoformat() + ":" + slot.isoformat()]; the time, as in
    ["08:00:00"], brings colons of its own, the split of line 163 yields
    more than three parts and the unpacking raises: a press of such a
    button never selects the slot. *)
Lemma slot_button_payload_raises strptime date_fromisoformat time_fromisoformat
    st chat day' slot_iso :
  Str.free_of ":" day' →
  (2 ≤ length (Str.split ":" slot_iso))%nat →
  _handle_time_selection strptime date_fromisoformat time_fromisoformat st chat
    ("slot:" +:+ day' +:+ ":" +:+ slot_iso)
  = Raised st ValueError.
Proof.
  intros Hday Hparts. unfold _handle_time_selection.
  assert (Str.split ":" ("slot:" +:+ day' +:+ ":" +:+ slot_iso)
          = "slot" :: day' :: Str.split ":" slot_iso) as Hsplit.
  { change ("slot:" +:+ day' +:+ ":" +:+ slot_iso)
      with ("slot" +:+ String ":" (day' +:+ String ":" slot_iso)).
    rewrite split_app by done. by rewrite split_app. }
  rewrite Hsplit.
  rewrite bool_decide_eq_false_2.
  - destruct (Str.split ":" slot_iso) as [|a [|b parts]]; simpl in *; [lia..|].
    by destruct parts.
  - intros Heq. apply (f_equal (Str.split ":")) in Heq. rewrite Hsplit in Heq.
    destruct (Str.split ":" slot_iso) as [|a [|b parts]]; simpl in *; [lia..|].
    discriminate.
Qed.

Example slot_button_8am st chat :
  _handle_time_selection sample_strptime sample_date_fromisoformat
    sample_time_fromisoformat st chat "slot:2024-06-10:08:00:00"
  = Raised st ValueError.
Proof.
  apply (slot_button_payload_raises _ _ _ st chat "2024-06-10" "08:00:00");
    [done|simpl; lia].
Qed.

(** * Confirmation *)

Lemma live_preview st chat p r :
  in_progress st !! chat = Some p → preview p = Some r →
  live (_get_progress st chat) = Some p.
Proof.
  intros Hp Hr. unfold _get_progress. rewrite Hp. apply live_Some.
  unfold nonempty. rewrite Hr. apply orb_true_iff. right.
  by apply bool_decide_eq_true_2.
Qed.

Lemma finalize_taken st chat p r :
  in_progress st !! chat = Some p → preview p = Some r →
  time_slot r ∉ PTime <$> _available_slots st (appointment_date r) →
  _finalize_booking st chat ("confirm:" +:+ booking_id r)
  = Done (set_in_progress
            (<[chat := set_entry "stage" (PStr "time") p]> (in_progress st)) st)
      [answer_callback_query "Slot already taken. Choose another time.";
       send_slots chat "Select a new time:" (appointment_date r)
         (_available_slots st (appointment_date r))].
Proof.
  intros Hp Hr Htaken. unfold _finalize_booking.
  rewrite split1_confirm, (live_preview st chat p r) by done.
  simpl. rewrite Hr.
  rewrite bool_decide_eq_true_2 by done. simpl.
  rewrite bool_decide_eq_false_2 by done. done.
Qed.

Lemma finalize_available st chat p r :
  in_progress st !! chat = Some p → preview p = Some r →
  time_slot r ∈ PTime <$> _available_slots st (appointment_date r) →
  ∃ out,
    _finalize_booking st chat ("confirm:" +:+ booking_id r)
    = Done (_save_request
              (set_in_progress
                 (<[chat := set_preview (set_status "pending_admin" r) p]>
                    (in_progress st)) st)
              (set_status "pending_admin" r)) out.
Proof.
  intros Hp Hr Hfree. unfold _finalize_booking.
  rewrite split1_confirm, (live_preview st chat p r) by done.
  simpl. rewrite Hr.
  rewrite bool_decide_eq_true_2 by done. simpl.
  rewrite bool_decide_eq_true_2 by done. simpl. eauto.
Qed.

Lemma holder_save st r :
  holder (_save_request st r) (appointment_date r) (time_slot r)
  = Some (booking_id r).
Proof.
  unfold holder, _save_request. simpl.
  rewrite lookup_insert_eq. simpl. by rewrite lookup_insert_eq.
Qed.

Lemma holder_save_ne st r d t :
  (d, t) ≠ (appointment_date r, time_slot r) →
  holder (_save_request st r) d t = holder st d t.
Proof.
  intros Hne. rewrite !holder_day. unfold _save_request. simpl.
  destruct (decide (d = appointment_date r)) as [->|Hd].
  - rewrite lookup_insert_eq. simpl.
    rewrite lookup_insert_ne by congruence. done.
  - by rewrite lookup_insert_ne.
Qed.

Lemma available_taken st d t :
  is_Some (holder st d t) → t ∉ PTime <$> _available_slots st d.
Proof.
  intros [bid Hbid] (t' & -> & Hin)%list_elem_of_fmap.
  apply available_slots_elem in Hin as [_ Hnone]. congruence.
Qed.

Lemma available_free st d t :
  t ∈ TIME_SLOTS → holder st d (PTime t) = None →
  PTime t ∈ PTime <$> _available_slots st d.
Proof.
  intros Hin Hnone. apply list_elem_of_fmap. exists t. split; [done|].
  by apply available_slots_elem.
Qed.

Lemma confirmed_intro st chat p r :
  in_progress st !! chat = Some p → preview p = Some r → user_id r = chat →
  time_slot r ∈ PTime <$> _available_slots st (appointment_date r) →
  confirmed st (state_of (_finalize_booking st chat ("confirm:" +:+ booking_id r)))
    chat r.
Proof.
  intros Hp Hr Hu Hfree.
  destruct (finalize_available st chat p r) as [out ->]; [done..|].
  simpl. split_and!.
  - apply (holder_save _ (set_status "pending_admin" r)).
  - unfold _save_request. simpl. by rewrite lookup_insert_eq.
  - unfold _save_request. simpl. by rewrite lookup_insert_eq.
  - unfold _save_request, _reset_progress. simpl.
    rewrite Hu. by rewrite lookup_delete_eq.
Qed.

Lemma sent_back_intro st chat p r :
  in_progress st !! chat = Some p → preview p = Some r →
  time_slot r ∉ PTime <$> _available_slots st (appointment_date r) →
  sent_back st (state_of (_finalize_booking st chat ("confirm:" +:+ booking_id r)))
    chat p.
Proof.
  intros Hp Hr Htaken. rewrite (finalize_taken st chat p r) by done.
  split_and!; [done..|]. by eexists.
Qed.


(** * Cancellation *)

Lemma remove_first_subseteq x l y : y ∈ remove_first x l → y ∈ l.
Proof.
  induction l as [|z l IH]; simpl; [done|].
  case_bool_decide; [by right|].
  intros [->|Hy]%elem_of_cons; [by left|]. right. auto.
Qed.

Lemma remove_first_other x l y : y ≠ x → y ∈ l → y ∈ remove_first x l.
Proof.
  intros Hne. induction l as [|z l IH]; simpl; [done|].
  intros [->|Hy]%elem_of_cons.
  - rewrite bool_decide_eq_false_2 by done. by left.
  - case_bool_decide; [done|]. right. auto.
Qed.

Lemma remove_first_NoDup x l : NoDup l → NoDup (remove_first x l).
Proof.
  induction 1 as [|z l Hz Hl IH]; simpl; [constructor|].
  case_bool_decide; [done|]. constructor; [|done].
  intros Hin. by apply Hz, (remove_first_subseteq x).
Qed.

Lemma remove_first_gone x l : NoDup l → x ∉ remove_first x l.
Proof.
  induction 1 as [|z l Hz Hl IH]; simpl; [by intros ?%elem_of_nil|].
  case_bool_decide as Hzx; [by subst|].
  intros [->|Hx]%elem_of_cons; [done|]. by apply IH.
Qed.

Lemma cancel_request_stored st bid r :
  requests st !! bid = Some r →
  _cancel_request st bid = (canceled st bid r, Some r).
Proof.
  intros Hr. unfold _cancel_request, canceled. rewrite Hr. simpl.
  destruct st as [a rq ur bs ip]. simpl.
  destruct (bs !! appointment_date r); simpl;
    by destruct (ur !! user_id r).
Qed.

Lemma cancel_request_missing st bid :
  requests st !! bid = None → _cancel_request st bid = (st, None).
Proof. intros Hr. unfold _cancel_request. by rewrite Hr. Qed.

Lemma holder_canceled st bid r :
  holder (canceled st bid r) (appointment_date r) (time_slot r) = None.
Proof.
  unfold holder, canceled. simpl.
  destruct (booked_slots st !! appointment_date r) as [day'|] eqn:Hday.
  - rewrite lookup_insert_eq. simpl. by rewrite lookup_delete_eq.
  - by rewrite Hday.
Qed.

Lemma holder_canceled_ne st bid r d t :
  (d, t) ≠ (appointment_date r, time_slot r) →
  holder (canceled st bid r) d t = holder st d t.
Proof.
  intros Hne. unfold holder, canceled. simpl.
  destruct (booked_slots st !! appointment_date r) as [day'|] eqn:Hday; [|done].
  destruct (decide (d = appointment_date r)) as [->|Hd].
  - rewrite lookup_insert_eq, Hday. simpl.
    rewrite lookup_delete_ne by congruence. done.
  - by rewrite lookup_insert_ne.
Qed.

Lemma user_requests_canceled st bid r u :
  user_requests (canceled st bid r) !! u
  = if bool_decide (u = user_id r)
    then remove_first bid <$> user_requests st !! u
    else user_requests st !! u.
Proof.
  unfold canceled. simpl. case_bool_decide as Hu.
  - subst u. destruct (user_requests st !! user_id r) as [l|] eqn:Hl.
    + by rewrite lookup_insert_eq.
    + by rewrite Hl.
  - destruct (user_requests st !! user_id r) as [l|] eqn:Hl; [|done].
    by rewrite lookup_insert_ne.
Qed.

Lemma cancel_booking_missing st bid :
  requests st !! bid = None →
  _cancel_booking st ("cancel:" +:+ bid)
  = Done st [edit_message_text "Nothing to cancel."].
Proof.
  intros Hr. unfold _cancel_booking.
  by rewrite split1_cancel, cancel_request_missing.
Qed.

Lemma cancel_booking_stored st bid r :
  consistent st → requests st !! bid = Some r →
  ∃ st',
    _cancel_booking st ("cancel:" +:+ bid)
    = Done st' [edit_message_text "Booking canceled."]
    ∧ requests st' !! bid = None
    ∧ (∀ u l, user_requests st' !! u = Some l → bid ∉ l)
    ∧ holder st' (appointment_date r) (time_slot r) = None
    ∧ time_slot r ∈ (PTime <$> _available_slots st' (appointment_date r)).
Proof.
  intros Hst Hr. exists (canceled st bid r).
  destruct Hst as [_ Hslot _ Hlisted _ _ _].
  split_and!.
  - unfold _cancel_booking.
    by rewrite split1_cancel, (cancel_request_stored st bid r).
  - simpl. apply lookup_delete_eq.
  - intros u l. rewrite user_requests_canceled. case_bool_decide as Hu.
    + intros (l0 & Hl0 & ->)%fmap_Some.
      apply remove_first_gone. by destruct (Hlisted _ _ Hl0).
    + intros Hl Hin. destruct (Hlisted _ _ Hl) as [_ Hall].
      destruct (Hall _ Hin) as (r' & Hr' & Hu'). congruence.
  - apply holder_canceled.
  - destruct (Hslot _ _ Hr) as [(t & Ht & Hin) _]. rewrite Ht.
    apply available_free; [done|]. rewrite <-Ht. apply holder_canceled.
Qed.

(** C6.  Cancelling a booking identifier that is not in the store changes
    nothing and reports "Nothing to cancel."; the handler returns.
    Cancelling a stored booking, in a consistent state, removes it from
    the store and from every user's list and releases its pair, which is
    then again among the available slots of its date. *)
Theorem cancel_releases st bid :
  (requests st !! bid = None →
   _cancel_booking st ("cancel:" +:+ bid)
   = Done st [edit_message_text "Nothing to cancel."])
  ∧ (∀ r, consistent st → requests st !! bid = Some r →
     ∃ st',
       _cancel_booking st ("cancel:" +:+ bid)
       = Done st' [edit_message_text "Booking canceled."]
       ∧ requests st' !! bid = None
       ∧ (∀ u l, user_requests st' !! u = Some l → bid ∉ l)
       ∧ holder st' (appointment_date r) (time_slot r) = None
       ∧ time_slot r ∈ (PTime <$> _available_slots st' (appointment_date r))).
Proof.
  split.
  - apply cancel_booking_missing.
  - intros r. apply cancel_booking_stored.
Qed.

(** * Reserving *)

(** C2, as stated, fails: [_save_request] has no conflict case.  Here the
    pair held by booking ["a"] is handed over to booking ["b"]. *)
Lemma save_request_overwrites :
  let d := PDate (mk_date 2024 6 10) in
  let t := PTime (mk_time 10 0 0 0) in
  let blank := mk_identity PNone PNone PNone PNone PNone PNone PNone in
  let nowhere := mk_address PNone PNone PNone PNone PNone PNone in
  let a := mk_request 1 (PStr "Technical support") d t blank nowhere "pending_admin" "a" in
  let b := mk_request 2 (PStr "Technical support") d t blank nowhere "pending_admin" "b" in
  let st := _save_request (init None) a in
  holder st d t = Some "a" ∧ holder (_save_request st b) d t = Some "b".
Proof. split; reflexivity. Qed.

(** C2, amended.  [_save_request] never fails: it records the pair of
    the request under the request's identifier, whatever the registry
    held.  The conflict is raised by its caller: a confirm for a pair that
    is present in the registry is rejected and leaves registry and store
    as they are, so no reservation replaces a standing one; once the
    booking that holds the pair is cancelled, the pair is absent and a
    confirm for it, for a slot of the enumeration, succeeds. *)
Theorem reserve_checked_by_confirm st chat p r :
  in_progress st !! chat = Some p → preview p = Some r → user_id r = chat →
  let d := appointment_date r in
  let t := time_slot r in
  let confirm st := state_of (_finalize_booking st chat ("confirm:" +:+ booking_id r)) in
  (∀ st0, holder (_save_request st0 r) d t = Some (booking_id r))
  ∧ (is_Some (holder st d t) →
     sent_back st (confirm st) chat p ∧ holder (confirm st) d t = holder st d t)
  ∧ (∀ a ra, requests st !! a = Some ra →
       appointment_date ra = d → time_slot ra = t → t ∈ PTime <$> TIME_SLOTS →
       let st1 := (_cancel_request st a).1 in
       holder st1 d t = None ∧ confirmed st1 (confirm st1) chat r).
Proof.
  intros Hp Hr Hu d t confirm. split_and!.
  - intros st0. apply holder_save.
  - intros Hheld.
    assert (sent_back st (confirm st) chat p) as Hback
      by by apply (sent_back_intro st chat p r), available_taken.
    split; [done|]. destruct Hback as (_ & _ & Hb & _).
    unfold holder. by rewrite Hb.
  - intros a ra Ha Hd Ht (t' & Ht' & Hin)%list_elem_of_fmap st1.
    assert (holder st1 d t = None) as Hnone.
    { subst st1. rewrite (cancel_request_stored st a ra) by done. simpl.
      rewrite <-Hd, <-Ht. apply holder_canceled. }
    split; [done|].
    apply (confirmed_intro st1 chat p r); [|done..|].
    + subst st1. by rewrite (cancel_request_stored st a ra).
    + fold t d. rewrite Ht'. apply available_free; [done|]. by rewrite <-Ht'.
Qed.

(** * Admin decisions *)

Lemma set_status_same r : set_status (status r) r = r.
Proof. by destruct r. Qed.

Lemma set_status_twice s1 s2 r : set_status s2 (set_status s1 r) = set_status s2 r.
Proof. done. Qed.

Lemma verdict_decided decision : decided (verdict decision).
Proof. unfold verdict, decided. case_bool_decide; auto. Qed.

(** An admin decision either leaves the state as it is, or rewrites the
    status of the stored booking its payload names. *)
Lemma admin_decision_cases st data :
  state_of (_admin_decision st data) = st
  ∨ ∃ x decision bid r,
      Str.split ":" data = [x; decision; bid]
      ∧ requests st !! bid = Some r
      ∧ state_of (_admin_decision st data)
        = set_requests (<[bid := set_status (verdict decision) r]> (requests st)) st.
Proof.
  unfold _admin_decision.
  destruct (Str.split ":" data) as [|x [|decision [|bid [|y parts]]]]; auto.
  destruct (requests st !! bid) as [r|] eqn:Hr; auto.
  right. by exists x, decision, bid, r.
Qed.

Lemma admin_decision_stored st decision bid r :
  Str.free_of ":" decision → Str.free_of ":" bid →
  requests st !! bid = Some r →
  state_of (_admin_decision st ("admin:" +:+ decision +:+ ":" +:+ bid))
  = set_requests (<[bid := set_status (verdict decision) r]> (requests st)) st.
Proof.
  intros Hd Hb Hr. unfold _admin_decision.
  rewrite split_admin by done. by rewrite Hr.
Qed.

Lemma admin_decision_lookup st data bid r :
  requests st !! bid = Some r →
  ∃ s, requests (state_of (_admin_decision st data)) !! bid = Some (set_status s r)
       ∧ (s = status r ∨ decided s).
Proof.
  intros Hr.
  destruct (admin_decision_cases st data)
    as [->|(x & decision & bid' & r' & _ & Hr' & ->)].
  - exists (status r). rewrite set_status_same. auto.
  - simpl. destruct (decide (bid' = bid)) as [->|Hne].
    + rewrite lookup_insert_eq. simplify_eq.
      exists (verdict decision). auto using verdict_decided.
    + rewrite lookup_insert_ne by done.
      exists (status r). rewrite set_status_same. auto.
Qed.

Lemma admin_decisions_decided datas st bid r :
  requests st !! bid = Some r → decided (status r) →
  ∃ s, requests (admin_decisions datas st) !! bid = Some (set_status s r)
       ∧ decided s.
Proof.
  revert st r. induction datas as [|data datas IH]; intros st r Hr Hs.
  - exists (status r). by rewrite set_status_same.
  - simpl. destruct (admin_decision_lookup st data bid r Hr) as (s & Hs' & Hdec).
    destruct (IH _ _ Hs') as (s' & Hlook & Hs'').
    { simpl. by destruct Hdec as [->|]. }
    exists s'. by rewrite set_status_twice in Hlook.
Qed.

(** C4, as stated, fails: a booking accepted by one admin decision is
    denied by the next. *)
Lemma accepted_then_denied :
  let blank := mk_identity PNone PNone PNone PNone PNone PNone PNone in
  let nowhere := mk_address PNone PNone PNone PNone PNone PNone in
  let a := mk_request 1 (PStr "Technical support") (PDate (mk_date 2024 6 10))
             (PTime (mk_time 10 0 0 0)) blank nowhere "pending_admin" "a" in
  let st := _save_request (init None) a in
  let st1 := state_of (_admin_decision st "admin:accept:a") in
  let st2 := state_of (_admin_decision st1 "admin:deny:a") in
  status <$> requests st !! "a" = Some "pending_admin"
  ∧ status <$> requests st1 !! "a" = Some "accepted"
  ∧ status <$> requests st2 !! "a" = Some "denied".
Proof. split_and!; reflexivity. Qed.

(** C4, amended.  An admin decision applies to a stored booking whatever
    its status: it sets the status to ["accepted"] for the decision
    ["accept"] and to ["denied"] for any other, and changes nothing else
    of the booking.  After it, every run of admin decisions leaves the
    booking stored with a status that is ["accepted"] or ["denied"]: a
    later decision may replace the earlier one, but the booking never
    returns to a pending status. *)
Theorem admin_decision_overwrites st bid r decision :
  requests st !! bid = Some r →
  Str.free_of ":" decision → Str.free_of ":" bid →
  let st' := state_of (_admin_decision st ("admin:" +:+ decision +:+ ":" +:+ bid)) in
  requests st' !! bid
  = Some (set_status (if bool_decide (decision = "accept") then "accepted" else "denied") r)
  ∧ ∀ datas, ∃ s,
      requests (admin_decisions datas st') !! bid = Some (set_status s r)
      ∧ decided s.
Proof.
  intros Hr Hd Hb st'. subst st'.
  rewrite (admin_decision_stored st decision bid r) by done. simpl.
  rewrite lookup_insert_eq. split; [done|]. intros datas.
  destruct (admin_decisions_decided datas
    (set_requests (<[bid := set_status (verdict decision) r]> (requests st)) st)
    bid (set_status (verdict decision) r)) as (s & Hs & Hdec).
  - simpl. apply lookup_insert_eq.
  - apply verdict_decided.
  - exists s. by rewrite set_status_twice in Hs.
Qed.

(** * The store stays consistent *)

Lemma consistent_init admin : consistent (init admin).
Proof.
  split; simpl; unfold holder; simpl; intros *;
    rewrite ?lookup_empty; try done.
Qed.

(** Handlers that only write session entries, or drop or open sessions,
    bring no new draft. *)
Lemma consistent_sessions st ip' :
  consistent st →
  (∀ u p' r, ip' !! u = Some p' → preview p' = Some r →
     ∃ p, in_progress st !! u = Some p ∧ preview p = Some r) →
  consistent (set_in_progress ip' st).
Proof.
  intros [H1 H2 H3 H4 H5 H6 H7] Hip. split; simpl; try done.
  - intros u p' r Hp' Hr. destruct (Hip _ _ _ Hp' Hr) as (p & Hp & Hpr). eauto.
  - intros u1 u2 p1 p2 r1 r2 Hp1 Hr1 Hp2 Hr2.
    destruct (Hip _ _ _ Hp1 Hr1) as (q1 & Hq1 & Hqr1).
    destruct (Hip _ _ _ Hp2 Hr2) as (q2 & Hq2 & Hqr2). eauto.
Qed.

Lemma consistent_entry st chat p k v :
  consistent st → in_progress st !! chat = Some p →
  consistent (set_in_progress (<[chat := set_entry k v p]> (in_progress st)) st).
Proof.
  intros Hst Hp. apply consistent_sessions; [done|].
  intros u p' r [[-> <-]|[Hne Hp']]%lookup_insert_Some Hr; eauto.
Qed.

Lemma consistent_reset st chat :
  consistent st → consistent (_reset_progress st chat).
Proof.
  intros Hst. apply consistent_sessions; [done|].
  intros u p' r [Hne Hp']%lookup_delete_Some Hr; eauto.
Qed.

(** A draft with a fresh identifier, built for its own session. *)
Lemma consistent_draft st chat p r :
  consistent st → fresh_id st (booking_id r) → user_id r = chat →
  consistent (set_in_progress (<[chat := set_preview r p]> (in_progress st)) st).
Proof.
  intros [H1 H2 H3 H4 H5 H6 H7] [Hnew Hdrafts] Hu. split; simpl; try done.
  - intros u p' r' [[-> <-]|[Hne Hp']]%lookup_insert_Some Hr'; simpl in *.
    + by simplify_eq.
    + eauto.
  - intros u1 u2 p1 p2 r1 r2.
    intros [[-> <-]|[Hne1 Hp1]]%lookup_insert_Some Hr1
           [[-> <-]|[Hne2 Hp2]]%lookup_insert_Some Hr2 Hid;
      simpl in *; simplify_eq; try done.
    + specialize (Hdrafts _ _ Hp2). simpl in Hdrafts. rewrite Hr2 in Hdrafts.
      congruence.
    + specialize (Hdrafts _ _ Hp1). simpl in Hdrafts. rewrite Hr1 in Hdrafts.
      congruence.
    + eauto.
Qed.

Lemma consistent_admin st data :
  consistent st → consistent (state_of (_admin_decision st data)).
Proof.
  intros Hst.
  destruct (admin_decision_cases st data)
    as [->|(x & decision & bid & r & _ & Hr & ->)]; [done|].
  destruct Hst as [H1 H2 H3 H4 H5 H6 H7]. split; simpl; unfold holder; simpl.
  - intros b r' [[-> <-]|[Hne Hr']]%lookup_insert_Some; simpl; eauto.
  - intros b r' [[-> <-]|[Hne Hr']]%lookup_insert_Some; simpl.
    + apply (H2 _ _ Hr).
    + apply (H2 _ _ Hr').
  - intros b r' [[-> <-]|[Hne Hr']]%lookup_insert_Some; simpl.
    + apply (H3 _ _ Hr).
    + apply (H3 _ _ Hr').
  - intros u l Hl. destruct (H4 _ _ Hl) as [Hnd Hall]. split; [done|].
    intros b Hb. destruct (Hall _ Hb) as (r' & Hr' & Hu).
    destruct (decide (bid = b)) as [->|Hne].
    + rewrite lookup_insert_eq. simplify_eq. eauto.
    + rewrite lookup_insert_ne by done. eauto.
  - intros d t b Hb. destruct (H5 _ _ _ Hb) as (r' & Hr' & Hd & Ht).
    destruct (decide (bid = b)) as [->|Hne].
    + rewrite lookup_insert_eq. simplify_eq. eauto.
    + rewrite lookup_insert_ne by done. eauto.
  - intros u p r' Hp Hr'. destruct (H6 _ _ _ Hp Hr') as [Hu Hnone].
    split; [done|]. rewrite lookup_insert_ne; [done|]. congruence.
  - done.
Qed.

Lemma requests_canceled st bid r :
  requests (canceled st bid r) = delete bid (requests st).
Proof. reflexivity. Qed.

Lemma in_progress_canceled st bid r :
  in_progress (canceled st bid r) = in_progress st.
Proof. reflexivity. Qed.

Lemma consistent_canceled st bid r :
  consistent st → requests st !! bid = Some r → consistent (canceled st bid r).
Proof.
  intros [H1 H2 H3 H4 H5 H6 H7] Hr.
  assert (∀ b r', b ≠ bid → requests st !! b = Some r' →
            (appointment_date r', time_slot r') ≠ (appointment_date r, time_slot r))
    as Hpair.
  { intros b r' Hne Hr' Heq. injection Heq as Hd Ht.
    destruct (H2 _ _ Hr) as [_ Hh], (H2 _ _ Hr') as [_ Hh'].
    rewrite Hd, Ht in Hh'. congruence. }
  split; rewrite ?requests_canceled, ?in_progress_canceled.
  - intros b r' [Hne Hr']%lookup_delete_Some. eauto.
  - intros b r' [Hne Hr']%lookup_delete_Some.
    destruct (H2 _ _ Hr') as [Hslot Hh]. split; [done|].
    rewrite holder_canceled_ne; eauto.
  - intros b r' [Hne Hr']%lookup_delete_Some.
    destruct (H3 _ _ Hr') as (l & Hl & Hin).
    rewrite user_requests_canceled, Hl. case_bool_decide.
    + eexists. split; [done|]. by apply remove_first_other.
    + eauto.
  - intros u l. rewrite user_requests_canceled. case_bool_decide as Hu.
    + intros (l0 & Hl0 & ->)%fmap_Some. destruct (H4 _ _ Hl0) as [Hnd Hall].
      split; [by apply remove_first_NoDup|]. intros b Hb.
      destruct (Hall b) as (r' & Hr' & Hu'); [by eapply remove_first_subseteq|].
      exists r'. split; [|done]. apply lookup_delete_Some.
      split; [|done]. intros <-. by apply (remove_first_gone bid l0).
    + intros Hl. destruct (H4 _ _ Hl) as [Hnd Hall]. split; [done|].
      intros b Hb. destruct (Hall b Hb) as (r' & Hr' & Hu').
      exists r'. split; [|done]. apply lookup_delete_Some.
      split; [|done]. intros <-. congruence.
  - intros d t b Hb.
    destruct (decide ((d, t) = (appointment_date r, time_slot r))) as [Heq|Hne].
    + simplify_eq. by rewrite holder_canceled in Hb.
    + rewrite holder_canceled_ne in Hb by done.
      destruct (H5 _ _ _ Hb) as (r' & Hr' & Hd & Ht).
      exists r'. split; [|done]. apply lookup_delete_Some.
      split; [|done]. intros <-. apply Hne. congruence.
  - intros u p r' Hp Hr'. destruct (H6 _ _ _ Hp Hr') as [Hu Hnone].
    split; [done|]. apply lookup_delete_None. auto.
  - done.
Qed.

Lemma save_request_fields st r :
  _save_request st r
  = mk_bot (admin_chat_id st)
      (<[booking_id r := r]> (requests st))
      (<[user_id r := default [] (user_requests st !! user_id r) ++ [booking_id r]]>
         (user_requests st))
      (<[appointment_date r :=
           <[time_slot r := booking_id r]>
             (default ∅ (booked_slots st !! appointment_date r))]>
         (booked_slots st))
      (delete (user_id r) (in_progress st)).
Proof. reflexivity. Qed.

Lemma available_slot_free st d v :
  v ∈ PTime <$> _available_slots st d →
  (∃ t, v = PTime t ∧ t ∈ TIME_SLOTS) ∧ holder st d v = None.
Proof.
  intros (t & -> & [Hin Hnone]%available_slots_elem)%list_elem_of_fmap. eauto.
Qed.

(** The store after an accepted confirm. *)
Lemma consistent_save st chat p r :
  consistent st →
  in_progress st !! chat = Some p → preview p = Some r →
  time_slot r ∈ PTime <$> _available_slots st (appointment_date r) →
  consistent
    (_save_request
       (set_in_progress
          (<[chat := set_preview (set_status "pending_admin" r) p]> (in_progress st)) st)
       (set_status "pending_admin" r)).
Proof.
  intros [H1 H2 H3 H4 H5 H6 H7] Hp Hr Hfree.
  destruct (H6 _ _ _ Hp Hr) as [Hu Hnew].
  destruct (available_slot_free _ _ _ Hfree) as [Hslot Hnone].
  set (r' := set_status "pending_admin" r).
  set (st0 := set_in_progress _ st).
  assert (∀ b r1, requests st !! b = Some r1 →
            (appointment_date r1, time_slot r1) ≠ (appointment_date r, time_slot r))
    as Hpair.
  { intros b r1 Hr1 Heq. injection Heq as Hd Ht.
    destruct (H2 _ _ Hr1) as [_ Hh]. rewrite Hd, Ht in Hh. congruence. }
  assert (∀ b r1, requests st !! b = Some r1 → b ≠ booking_id r) as Hother
    by (intros b r1 Hr1 ->; congruence).
  split.
  1-4, 6-7: rewrite save_request_fields; simpl.
  - intros b r1 [[<- <-]|[Hne Hr1]]%lookup_insert_Some; eauto.
  - intros b r1 [[<- <-]|[Hne Hr1]]%lookup_insert_Some.
    + split; [done|]. apply (holder_save st0 r').
    + destruct (H2 _ _ Hr1) as [Hs Hh]. split; [done|].
      rewrite <-Hh. apply (holder_save_ne st0 r'). simpl. eauto.
  - intros b r1 [[<- <-]|[Hne Hr1]]%lookup_insert_Some; simpl.
    + rewrite lookup_insert_eq. eexists. split; [done|].
      apply elem_of_app. right. by left.
    + destruct (H3 _ _ Hr1) as (l & Hl & Hin).
      destruct (decide (user_id r = user_id r1)) as [Heq|Hne'].
      * rewrite Heq, lookup_insert_eq, Hl. eexists. split; [done|].
        apply elem_of_app. by left.
      * rewrite lookup_insert_ne by done. eauto.
  - intros u l [[<- <-]|[Hne Hl]]%lookup_insert_Some.
    + assert (∀ b, b ∈ default [] (user_requests st !! user_id r) →
                ∃ r1, requests st !! b = Some r1 ∧ user_id r1 = user_id r) as Hall.
      { intros b. destruct (user_requests st !! user_id r) as [l0|] eqn:Hl0; simpl.
        - apply (H4 _ _ Hl0).
        - by intros ?%elem_of_nil. }
      split.
      * apply NoDup_app. split_and!.
        -- destruct (user_requests st !! user_id r) as [l0|] eqn:Hl0; simpl.
           ++ apply (H4 _ _ Hl0).
           ++ constructor.
        -- intros b Hb ->%list_elem_of_singleton.
           destruct (Hall _ Hb) as (r1 & Hr1 & _). congruence.
        -- apply NoDup_singleton.
      * intros b [Hb| ->%list_elem_of_singleton]%elem_of_app.
        -- destruct (Hall _ Hb) as (r1 & Hr1 & Hu1). exists r1.
           rewrite lookup_insert_ne by (symmetry; eauto). done.
        -- exists r'. by rewrite lookup_insert_eq.
    + destruct (H4 _ _ Hl) as [Hnd Hall]. split; [done|].
      intros b Hb. destruct (Hall _ Hb) as (r1 & Hr1 & Hu1). exists r1.
      rewrite lookup_insert_ne by (symmetry; eauto). done.
  - intros u q r1 [Hne [[-> <-]|[_ Hq]]%lookup_insert_Some]%lookup_delete_Some Hr1;
      [done|].
    destruct (H6 _ _ _ Hq Hr1) as [Hu1 Hnone1]. split; [done|].
    rewrite lookup_insert_ne; [done|].
    intros Heq. apply Hne. rewrite Hu. symmetry.
    by apply (H7 u chat q p r1 r).
  - intros u1 u2 p1 p2 r1 r2.
    intros [Hne1 [[-> <-]|[_ Hp1]]%lookup_insert_Some]%lookup_delete_Some Hr1;
      [done|].
    intros [Hne2 [[-> <-]|[_ Hp2]]%lookup_insert_Some]%lookup_delete_Some Hr2;
      [done|].
    eauto.
  - intros d t b Hb.
    destruct (decide ((d, t) = (appointment_date r, time_slot r))) as [Heq|Hne].
    + injection Heq as -> ->.
      pose proof (holder_save st0 r') as Hh. simpl in Hh. rewrite Hh in Hb.
      injection Hb as <-. exists r'. rewrite save_request_fields. simpl.
      by rewrite lookup_insert_eq.
    + rewrite (holder_save_ne st0 r') in Hb by done.
      destruct (H5 _ _ _ Hb) as (r1 & Hr1 & Hd & Ht). exists r1.
      rewrite save_request_fields. simpl.
      rewrite lookup_insert_ne by (symmetry; eauto). done.
Qed.

Lemma consistent_update st chat p p' :
  consistent st → in_progress st !! chat = Some p → preview p' = preview p →
  consistent (set_in_progress (<[chat := p']> (in_progress st)) st).
Proof.
  intros Hst Hp Hpre. apply consistent_sessions; [done|].
  intros u q r [[-> <-]|[Hne Hq]]%lookup_insert_Some Hr; eauto.
  exists p. by rewrite <-Hpre.
Qed.

Lemma fresh_id_update st chat p p' new_id :
  fresh_id st new_id → in_progress st !! chat = Some p → preview p' = preview p →
  fresh_id (set_in_progress (<[chat := p']> (in_progress st)) st) new_id.
Proof.
  intros [Hnew Hdrafts] Hp Hpre. split; [done|]. simpl.
  apply map_Forall_insert_2; [|done].
  rewrite Hpre. apply (Hdrafts _ _ Hp).
Qed.

Lemma live_inv st chat p :
  live (_get_progress st chat) = Some p → in_progress st !! chat = Some p.
Proof.
  unfold live, _get_progress. destruct (in_progress st !! chat) as [q|]; [|done].
  by destruct (nonempty q); intros; simplify_eq.
Qed.

Lemma finalize_cases st chat data :
  state_of (_finalize_booking st chat data) = st
  ∨ (∃ p, in_progress st !! chat = Some p
          ∧ state_of (_finalize_booking st chat data)
            = set_in_progress
                (<[chat := set_entry "stage" (PStr "time") p]> (in_progress st)) st)
  ∨ (∃ p r, in_progress st !! chat = Some p ∧ preview p = Some r
            ∧ time_slot r ∈ PTime <$> _available_slots st (appointment_date r)
            ∧ state_of (_finalize_booking st chat data)
              = _save_request
                  (set_in_progress
                     (<[chat := set_preview (set_status "pending_admin" r) p]>
                        (in_progress st)) st)
                  (set_status "pending_admin" r)).
Proof.
  unfold _finalize_booking.
  destruct (Str.split1 ":" data !! 1%nat) as [bid|]; [|by left].
  destruct (live (_get_progress st chat)) as [p|] eqn:Hlive; [|by left].
  apply live_inv in Hlive. simpl.
  destruct (preview p) as [r|] eqn:Hr; [|by left].
  case_bool_decide; simpl; [|by left].
  case_bool_decide; simpl.
  - right. right. by exists p, r.
  - right. left. by exists p.
Qed.

Lemma consistent_finalize st chat data :
  consistent st → consistent (state_of (_finalize_booking st chat data)).
Proof.
  intros Hst.
  destruct (finalize_cases st chat data)
    as [->|[(p & Hp & ->)|(p & r & Hp & Hr & Hfree & ->)]].
  - done.
  - by apply (consistent_update st chat p).
  - by apply consistent_save.
Qed.

Lemma consistent_cancel st data :
  consistent st → consistent (state_of (_cancel_booking st data)).
Proof.
  intros Hst. unfold _cancel_booking.
  destruct (Str.split1 ":" data !! 1%nat) as [bid|]; [|done].
  destruct (requests st !! bid) as [r|] eqn:Hr.
  - rewrite (cancel_request_stored st bid r) by done. simpl.
    by apply consistent_canceled.
  - by rewrite cancel_request_missing.
Qed.

Section Reachability.

Variable strptime : string → option date.
Variable date_fromisoformat : string → option date.
Variable time_fromisoformat : string → option time.

Lemma consistent_prompt today new_id st chat :
  consistent st → fresh_id st new_id →
  consistent (state_of (_prompt_confirmation today new_id st chat)).
Proof.
  intros Hst Hnew. unfold _prompt_confirmation.
  destruct (live (_get_progress st chat)) as [p|] eqn:Hlive; [|done].
  simpl. by apply consistent_draft.
Qed.

Lemma consistent_form_field today new_id st chat text :
  consistent st → fresh_id st new_id →
  consistent (state_of (_handle_form_field strptime today new_id st chat text)).
Proof.
  intros Hst Hnew. unfold _handle_form_field, _get_progress.
  destruct (in_progress st !! chat) as [p|] eqn:Hp; [|done].
  destruct (int_of _) as [index|]; [|done].
  destruct (py_index _ index) as [[[key prompt] parser]|]; [|done].
  destruct (parser text) as [[[] value] error]; simpl; [|done].
  assert (consistent
    (set_in_progress (<[chat := set_entry key value p]> (in_progress st)) st))
    as Hst1 by by apply (consistent_update st chat p).
  case_bool_decide.
  - apply consistent_prompt; [done|]. by apply (fresh_id_update st chat p).
  - assert (consistent
      (set_in_progress
         (<[chat := set_entry "field_index" (PInt (index + 1)) (set_entry key value p)]>
            (in_progress
               (set_in_progress (<[chat := set_entry key value p]> (in_progress st)) st)))
         (set_in_progress (<[chat := set_entry key value p]> (in_progress st)) st)))
      as Hst2.
    { apply (consistent_update _ chat (set_entry key value p)); [done| |done].
      simpl. apply lookup_insert_eq. }
    by destruct (py_index _ (index + 1)) as [[[? ?] ?]|].
Qed.

Lemma consistent_category st chat text :
  consistent st → consistent (state_of (_handle_category st chat text)).
Proof.
  intros Hst. unfold _handle_category, _get_progress.
  case_bool_decide; simpl; [|done].
  destruct (in_progress st !! chat) as [p|] eqn:Hp; [|done].
  simpl. by apply (consistent_update st chat p).
Qed.

Lemma consistent_route today new_id st chat text :
  consistent st → fresh_id st new_id →
  consistent (state_of (_route_message strptime today new_id st chat text)).
Proof.
  intros Hst Hnew. unfold _route_message.
  destruct (live (_get_progress st chat)) as [p|]; [|done].
  case_bool_decide; [by apply consistent_category|].
  case_bool_decide; [by apply consistent_form_field|done].
Qed.

Lemma consistent_calendar st chat result key :
  consistent st →
  consistent (state_of (_handle_calendar_selection st chat result key)).
Proof.
  intros Hst. unfold _handle_calendar_selection.
  destruct result as [result|]; [|by destruct key].
  destruct (live (_get_progress st chat)) as [p|] eqn:Hlive; [|done].
  apply live_inv in Hlive. simpl. by apply (consistent_update st chat p).
Qed.

Lemma consistent_time_selection st chat data :
  consistent st →
  consistent (state_of
    (_handle_time_selection strptime date_fromisoformat time_fromisoformat st chat data)).
Proof.
  intros Hst. unfold _handle_time_selection.
  case_bool_decide; [done|].
  destruct (Str.split ":" data) as [|x [|day' [|slot_raw [|y parts]]]]; try done.
  destruct (date_fromisoformat day') as [chosen_date|]; [|done].
  destruct (time_fromisoformat slot_raw) as [slot_time|]; [|done].
  case_bool_decide; simpl; [|done].
  destruct (live (_get_progress st chat)) as [p|] eqn:Hlive; [|done].
  apply live_inv in Hlive. simpl. by apply (consistent_update st chat p).
Qed.

Lemma consistent_start_flow st user :
  consistent st → consistent (state_of (_start_booking_flow st user)).
Proof.
  intros Hst. unfold _start_booking_flow. simpl.
  apply consistent_sessions; [done|].
  intros u q r [[-> <-]|[Hne Hq]]%lookup_insert_Some Hr; [done|eauto].
Qed.

Lemma consistent_handle ev st :
  consistent st → event_ok st ev →
  consistent (state_of
    (handle strptime date_fromisoformat time_fromisoformat ev st)).
Proof.
  intros Hst Hok. destruct ev; simpl in *.
  - by apply consistent_reset.
  - by apply consistent_start_flow.
  - by apply consistent_route.
  - by apply consistent_calendar.
  - by apply consistent_time_selection.
  - by apply consistent_finalize.
  - by apply consistent_cancel.
  - by apply consistent_admin.
Qed.

(** Every state the bot reaches is consistent. *)
Lemma reachable_consistent st :
  reachable strptime date_fromisoformat time_fromisoformat st → consistent st.
Proof.
  induction 1 as [admin|st ev Hreach IH Hok].
  - apply consistent_init.
  - by apply consistent_handle.
Qed.

End Reachability.

(** * A reservation stands until its booking is cancelled *)

Section Runs.

Variable strptime : string → option date.
Variable date_fromisoformat : string → option date.
Variable time_fromisoformat : string → option time.

Ltac frame_cases :=
  repeat first [done | progress simpl | case_match | case_bool_decide].

Lemma requests_prompt today new_id st chat :
  requests (state_of (_prompt_confirmation today new_id st chat)) = requests st.
Proof. unfold _prompt_confirmation. frame_cases. Qed.

Lemma requests_route today new_id st chat text :
  requests (state_of (_route_message strptime today new_id st chat text))
  = requests st.
Proof.
  unfold _route_message, _handle_category, _handle_form_field.
  destruct (live _); [|done].
  case_bool_decide; [frame_cases|].
  case_bool_decide; [|done].
  destruct (_get_progress st chat); [|done].
  destruct (int_of _); [|done].
  destruct (py_index _ _) as [[[key prompt] parser]|]; [|done].
  destruct (parser text) as [[[] value] error]; simpl; [|done].
  case_bool_decide; [by rewrite requests_prompt|].
  by destruct (py_index _ _) as [[[? ?] ?]|].
Qed.

Lemma requests_calendar st chat result key :
  requests (state_of (_handle_calendar_selection st chat result key)) = requests st.
Proof. unfold _handle_calendar_selection. frame_cases. Qed.

Lemma requests_time_selection st chat data :
  requests (state_of
    (_handle_time_selection strptime date_fromisoformat time_fromisoformat st chat data))
  = requests st.
Proof. unfold _handle_time_selection. frame_cases. Qed.

(** A stored booking stays stored, up to its status, under every event
    but its own cancellation. *)
Lemma stored_step ev st bid r :
  consistent st → ¬ cancels bid ev → requests st !! bid = Some r →
  ∃ s, requests (state_of
         (handle strptime date_fromisoformat time_fromisoformat ev st)) !! bid
       = Some (set_status s r).
Proof.
  intros Hst Hev Hr.
  assert (∀ st', requests st' = requests st →
            ∃ s, requests st' !! bid = Some (set_status s r)) as Hsame.
  { intros st' ->. exists (status r). by rewrite set_status_same. }
  destruct ev; simpl in *.
  - by apply Hsame.
  - by apply Hsame.
  - apply Hsame, requests_route.
  - apply Hsame, requests_calendar.
  - apply Hsame, requests_time_selection.
  - destruct (finalize_cases st chat data)
      as [->|[(p & Hp & ->)|(p & r0 & Hp & Hr0 & Hfree & ->)]].
    + by apply Hsame.
    + by apply Hsame.
    + exists (status r). rewrite set_status_same, save_request_fields. simpl.
      rewrite lookup_insert_ne; [done|].
      destruct (draft_owner st Hst _ _ _ Hp Hr0) as [_ Hnone]. congruence.
  - unfold _cancel_booking.
    destruct (Str.split1 ":" data !! 1%nat) as [b|]; [|by apply Hsame].
    destruct (requests st !! b) as [rb|] eqn:Hrb.
    + rewrite (cancel_request_stored st b rb) by done. simpl.
      exists (status r). rewrite set_status_same, lookup_delete_ne; [done|].
      congruence.
    + rewrite cancel_request_missing by done. by apply Hsame.
  - destruct (admin_decision_lookup st data bid r Hr) as (s & Hs & _). eauto.
Qed.

Lemma stored_run evs st bid r :
  consistent st → run_ok strptime date_fromisoformat time_fromisoformat evs st → Forall (λ ev, ¬ cancels bid ev) evs →
  requests st !! bid = Some r →
  consistent (run strptime date_fromisoformat time_fromisoformat evs st)
  ∧ ∃ s, requests (run strptime date_fromisoformat time_fromisoformat evs st) !! bid = Some (set_status s r).
Proof.
  revert st r. induction evs as [|ev evs IH]; intros st r Hst Hok Hevs Hr.
  - split; [done|]. exists (status r). by rewrite set_status_same.
  - destruct Hok as [Hok1 Hok]. apply Forall_cons in Hevs as [Hev Hevs].
    destruct (stored_step ev st bid r) as (s & Hs); [done..|].
    destruct (IH _ _ (consistent_handle _ _ _ ev st Hst Hok1) Hok Hevs Hs)
      as [Hc (s' & Hs')].
    split; [done|]. exists s'. by rewrite set_status_twice in Hs'.
Qed.

End Runs.

(** C10.  An admin decision leaves the slot registry, the per-user index,
    the sessions and the identifiers of the store as they are, hence the
    available slots of every date; in the store at most the booking named
    by the payload changes, and only in its status.  After a booking is denied, in a consistent
    state, its pair stays reserved for it, and absent from the available
    slots of its date, through every run of events that does not cancel
    the booking; cancelling it then makes the slot available again. *)
Theorem admin_decision_frame strptime date_fromisoformat time_fromisoformat st data :
  let st' := state_of (_admin_decision st data) in
  (booked_slots st' = booked_slots st
   ∧ user_requests st' = user_requests st
   ∧ in_progress st' = in_progress st
   ∧ (dom (requests st') : gset string) = dom (requests st))
  ∧ (∀ d, _available_slots st' d = _available_slots st d)
  ∧ (∀ bid,
       requests st' !! bid = requests st !! bid
       ∨ ∃ r s, Str.split ":" data !! 2%nat = Some bid
                ∧ requests st !! bid = Some r
                ∧ requests st' !! bid = Some (set_status s r))
  ∧ (∀ bid r,
       consistent st → requests st !! bid = Some r → Str.free_of ":" bid →
       data = "admin:deny:" +:+ bid →
       requests st' !! bid = Some (set_status "denied" r)
       ∧ ∀ evs,
           run_ok strptime date_fromisoformat time_fromisoformat evs st' →
           Forall (λ ev, ¬ cancels bid ev) evs →
           let st'' := run strptime date_fromisoformat time_fromisoformat evs st' in
           holder st'' (appointment_date r) (time_slot r) = Some bid
           ∧ (time_slot r ∉ PTime <$> _available_slots st'' (appointment_date r))
           ∧ time_slot r
             ∈ (PTime <$> _available_slots
                  (state_of (_cancel_booking st'' ("cancel:" +:+ bid)))
                  (appointment_date r))).
Proof.
  intros st'.
  assert (booked_slots st' = booked_slots st) as Hb.
  { subst st'.
    by destruct (admin_decision_cases st data)
      as [->|(x & decision & bid & r & _ & Hr & ->)]. }
  split_and!.
  - done.
  - subst st'.
    by destruct (admin_decision_cases st data)
      as [->|(x & decision & bid & r & _ & Hr & ->)].
  - subst st'.
    by destruct (admin_decision_cases st data)
      as [->|(x & decision & bid & r & _ & Hr & ->)].
  - subst st'.
    destruct (admin_decision_cases st data)
      as [->|(x & decision & bid & r & _ & Hr & ->)]; [done|].
    simpl. apply dom_insert_lookup_L. eauto.
  - intros d. unfold _available_slots. by rewrite Hb.
  - intros bid. subst st'.
    destruct (admin_decision_cases st data)
      as [->|(x & decision & bid' & r & Hsplit & Hr & ->)]; [by left|].
    simpl. destruct (decide (bid' = bid)) as [->|Hne].
    + right. exists r, (verdict decision). rewrite Hsplit, lookup_insert_eq. done.
    + left. by rewrite lookup_insert_ne.
  - intros bid r Hst Hr Hfree ->.
    assert (requests st' !! bid = Some (set_status "denied" r)) as Hr'.
    { subst st'.
      change ("admin:deny:" +:+ bid) with ("admin:" +:+ "deny" +:+ ":" +:+ bid).
      rewrite (admin_decision_stored st "deny" bid r) by done.
      simpl. by rewrite lookup_insert_eq. }
    split; [done|]. intros evs Hok Hevs st''.
    destruct (stored_run strptime date_fromisoformat time_fromisoformat
                evs st' bid (set_status "denied" r))
      as [Hst'' (s & Hs)]; [by apply consistent_admin|done..|].
    fold st'' in Hst'', Hs. rewrite set_status_twice in Hs.
    destruct (stored_slot st'' Hst'' _ _ Hs) as [_ Hheld]. simpl in Hheld.
    split_and!; [done|..].
    + apply available_taken. eauto.
    + destruct (cancel_booking_stored st'' bid _ Hst'' Hs)
        as (st3 & -> & _ & _ & _ & Hfree').
      done.
Qed.

(** * The sample conversation *)

Section Decide.

Variable strptime : string → option date.
Variable date_fromisoformat : string → option date.
Variable time_fromisoformat : string → option time.

Lemma consistent_run evs st :
  consistent st →
  run_ok strptime date_fromisoformat time_fromisoformat evs st →
  consistent (run strptime date_fromisoformat time_fromisoformat evs st).
Proof.
  revert st. induction evs as [|ev evs IH]; intros st Hst Hok; [done|].
  destruct Hok as [Hok1 Hok]. simpl. apply IH; [|done].
  by apply consistent_handle.
Qed.

End Decide.

Lemma two_drafts_consistent : consistent two_drafts.
Proof.
  apply consistent_run; [apply consistent_init|].
  apply (bool_decide_unpack _). by vm_compute.
Qed.

Lemma two_drafts_sessions :
  in_progress two_drafts !! 7 = Some (sample_session 7 "b1")
  ∧ in_progress two_drafts !! 8 = Some (sample_session 8 "b2").
Proof. split; by vm_compute. Qed.

Lemma one_booking_consistent : consistent one_booking.
Proof. apply consistent_handle; [apply two_drafts_consistent|done]. Qed.

(** C5.  User 7 answers the last field of the form with a valid postal
    code.  The answer is stored and the draft is built with status
    ["pending_user"], but the session is still in the fields stage at
    index 12: the next text is taken as an answer to the postal-code
    field again, replaces the stored answer and builds a second draft
    under a new identifier. *)
Theorem last_field_stays_in_form :
  let st1 := state_of
    (sample_handle (TextMessage 7 "a2a 1b4" sample_today "b1") at_last_field) in
  let st2 := state_of
    (sample_handle (TextMessage 7 "b3b 2c5" sample_today "b9") st1) in
  let field (st : bot) (k : string) := in_progress st !! 7 ≫= λ p, entries p !! k in
  let draft (st : bot) := in_progress st !! 7 ≫= preview in
  (field at_last_field "stage" = Some (PStr "fields")
   ∧ field at_last_field "field_index" = Some (PInt 12)
   ∧ draft at_last_field = None)
  ∧ (field st1 "postal" = Some (PStr "A2A 1B4")
     ∧ draft st1 = Some (sample_draft 7 "b1")
     ∧ field st1 "stage" = Some (PStr "fields")
     ∧ field st1 "field_index" = Some (PInt 12))
  ∧ (field st2 "postal" = Some (PStr "B3B 2C5")
     ∧ booking_id <$> draft st2 = Some "b9"
     ∧ field st2 "stage" = Some (PStr "fields")
     ∧ field st2 "field_index" = Some (PInt 12)).
Proof. by vm_compute. Qed.

(** User 7, asked for the first name, sends a blank text. *)
Lemma rejected_input_keeps_session_witness :
  _route_message sample_strptime sample_today "b1" at_first_field 7 "   "
  = Done at_first_field [send_message 7 "This field is required."]
  ∧ in_progress
      (state_of (_route_message sample_strptime sample_today "b1" at_first_field 7 "   "))
    !! 7
    = in_progress at_first_field !! 7.
Proof.
  destruct (in_progress at_first_field !! 7) as [p|] eqn:Hp; [|by vm_compute in Hp].
  apply (rejected_input_keeps_session sample_strptime sample_today "b1"
           at_first_field 7 p 0 "first_name" "Enter your first name:"
           _parse_required_text "   " (PStr "") (Some "This field is required."));
    [done|..|reflexivity|reflexivity];
    vm_compute in Hp; injection Hp as <-; by vm_compute.
Defined.


(** User 8 confirms while booking ["b1"] holds the slot, and again once
    it is cancelled. *)
Lemma reserve_checked_by_confirm_witness :
  let released := (_cancel_request one_booking "b1").1 in
  sent_back one_booking
    (state_of (_finalize_booking one_booking 8 "confirm:b2"))
    8 (sample_session 8 "b2")
  ∧ confirmed released
      (state_of (_finalize_booking released 8 "confirm:b2"))
      8 (sample_draft 8 "b2").
Proof.
  destruct (reserve_checked_by_confirm one_booking 8 (sample_session 8 "b2")
              (sample_draft 8 "b2")) as (_ & Hstands & Hreleased);
    [by vm_compute..|].
  split.
  - apply Hstands. exists "b1". by vm_compute.
  - apply (Hreleased "b1" (set_status "pending_admin" (sample_draft 7 "b1")));
      [by vm_compute..|].
    apply (bool_decide_unpack _). by vm_compute.
Defined.

(** Booking ["b1"], accepted, is denied by a second decision. *)
Lemma admin_decision_overwrites_witness :
  let accepted := state_of (_admin_decision one_booking "admin:accept:b1") in
  requests accepted !! "b1" = Some (set_status "accepted" (sample_draft 7 "b1"))
  ∧ requests (state_of (_admin_decision accepted "admin:deny:b1")) !! "b1"
    = Some (set_status "denied" (sample_draft 7 "b1")).
Proof.
  split; [by vm_compute|].
  apply (admin_decision_overwrites
           (state_of (_admin_decision one_booking "admin:accept:b1")) "b1"
           (set_status "accepted" (sample_draft 7 "b1")) "deny");
    by vm_compute.
Defined.

(** Cancelling the unknown ["b0"] and the stored ["b1"]. *)
Lemma cancel_releases_witness :
  _cancel_booking one_booking "cancel:b0"
  = Done one_booking [edit_message_text "Nothing to cancel."]
  ∧ ∃ st',
      _cancel_booking one_booking "cancel:b1"
      = Done st' [edit_message_text "Booking canceled."]
      ∧ requests st' !! "b1" = None
      ∧ (∀ u l, user_requests st' !! u = Some l → "b1" ∉ l)
      ∧ holder st' (PDate (mk_date 2024 6 10)) (PTime (mk_time 10 0 0 0)) = None
      ∧ PTime (mk_time 10 0 0 0)
        ∈ (PTime <$> _available_slots st' (PDate (mk_date 2024 6 10))).
Proof.
  split.
  - apply (proj1 (cancel_releases one_booking "b0")). by vm_compute.
  - apply (proj2 (cancel_releases one_booking "b1")
             (set_status "pending_admin" (sample_draft 7 "b1")));
      [apply one_booking_consistent|by vm_compute].
Defined.

(** Booking ["b1"] is denied; its slot stays taken through later events
    and is free again once the booking is cancelled. *)
Lemma admin_decision_frame_witness :
  let denied := state_of (_admin_decision one_booking "admin:deny:b1") in
  let later :=
    sample_run
      [AdminPress "admin:accept:b1"; ConfirmPress 8 "confirm:b2";
       TextMessage 8 "b3b 2c5" sample_today "b3"; CancelPress "cancel:b2"]
      denied in
  holder later (PDate (mk_date 2024 6 10)) (PTime (mk_time 10 0 0 0)) = Some "b1"
  ∧ (PTime (mk_time 10 0 0 0)
     ∉ PTime <$> _available_slots later (PDate (mk_date 2024 6 10)))
  ∧ PTime (mk_time 10 0 0 0)
    ∈ (PTime <$> _available_slots
         (state_of (_cancel_booking later "cancel:b1"))
         (PDate (mk_date 2024 6 10))).
Proof.
  destruct (admin_decision_frame sample_strptime sample_date_fromisoformat
              sample_time_fromisoformat one_booking "admin:deny:b1")
    as (_ & _ & _ & Hdenied).
  destruct (Hdenied "b1" (set_status "pending_admin" (sample_draft 7 "b1")))
    as [_ Hstands];
    [apply one_booking_consistent|by vm_compute|reflexivity|reflexivity|].
  apply (Hstands
           [AdminPress "admin:accept:b1"; ConfirmPress 8 "confirm:b2";
            TextMessage 8 "b3b 2c5" sample_today "b3"; CancelPress "cancel:b2"]).
  - apply (bool_decide_unpack _). by vm_compute.
  - repeat constructor; simpl; try tauto. by intros [=].
Defined.

(** * Further properties of the store *)

Section Reached.

Variable strptime : string → option date.
Variable date_fromisoformat : string → option date.
Variable time_fromisoformat : string → option time.

Lemma reachable_run evs st :
  reachable strptime date_fromisoformat time_fromisoformat st →
  run_ok strptime date_fromisoformat time_fromisoformat evs st →
  reachable strptime date_fromisoformat time_fromisoformat
    (run strptime date_fromisoformat time_fromisoformat evs st).
Proof.
  revert st. induction evs as [|ev evs IH]; intros st Hst Hok; [done|].
  destruct Hok as [Hok1 Hok]. simpl. apply IH; [|done].
  by apply reachable_step.
Qed.

(** X1.  In every state the bot reaches, two stored bookings for the same
    date and time slot are one and the same booking: no slot is booked
    twice. *)
Theorem one_booking_per_slot st b1 b2 r1 r2 :
  reachable strptime date_fromisoformat time_fromisoformat st →
  requests st !! b1 = Some r1 → requests st !! b2 = Some r2 →
  appointment_date r1 = appointment_date r2 → time_slot r1 = time_slot r2 →
  b1 = b2 ∧ r1 = r2.
Proof.
  intros Hst%reachable_consistent Hr1 Hr2 Hd Ht.
  destruct (stored_slot st Hst _ _ Hr1) as [_ Hh1].
  destruct (stored_slot st Hst _ _ Hr2) as [_ Hh2].
  rewrite Hd, Ht in Hh1. assert (b1 = b2) as -> by congruence.
  split; [done|congruence].
Qed.

(** X2.  In every state the bot reaches, the slots offered for a date are
    exactly the slots of the enumeration that no stored booking has for
    that date. *)
Theorem offered_iff_unbooked st d t :
  reachable strptime date_fromisoformat time_fromisoformat st →
  t ∈ _available_slots st d ↔
  t ∈ TIME_SLOTS
  ∧ ∀ bid r, requests st !! bid = Some r →
      ¬ (appointment_date r = d ∧ time_slot r = PTime t).
Proof.
  intros Hst%reachable_consistent. rewrite available_slots_elem.
  split; intros [Hin Hfree]; (split; [done|]).
  - intros bid r Hr [<- Ht]. destruct (stored_slot st Hst _ _ Hr) as [_ Hh].
    rewrite Ht in Hh. congruence.
  - destruct (holder st d (PTime t)) as [bid|] eqn:Hh; [|done].
    destruct (held_stored st Hst _ _ _ Hh) as (r & Hr & Hd & Ht).
    by destruct (Hfree _ _ Hr).
Qed.

End Reached.

Lemma one_booking_reachable :
  reachable sample_strptime sample_date_fromisoformat sample_time_fromisoformat
    one_booking.
Proof.
  apply reachable_step; [|done].
  apply reachable_run; [apply reachable_init|].
  apply (bool_decide_unpack _). by vm_compute.
Qed.

(** Booking ["b1"] is the one booking of its slot. *)
Lemma one_booking_per_slot_witness :
  "b1" = "b1"
  ∧ set_status "pending_admin" (sample_draft 7 "b1")
    = set_status "pending_admin" (sample_draft 7 "b1").
Proof.
  apply (one_booking_per_slot sample_strptime sample_date_fromisoformat
           sample_time_fromisoformat one_booking "b1" "b1");
    [apply one_booking_reachable|by vm_compute..].
Defined.

(** With ["b1"] stored, 12:00 is offered on 10 June 2024 and 10:00 is not. *)
Lemma offered_iff_unbooked_witness :
  mk_time 12 0 0 0 ∈ _available_slots one_booking (PDate (mk_date 2024 6 10))
  ∧ mk_time 10 0 0 0 ∉ _available_slots one_booking (PDate (mk_date 2024 6 10)).
Proof.
  split.
  - apply (bool_decide_unpack _). by vm_compute.
  - intros Hin.
    apply (offered_iff_unbooked sample_strptime sample_date_fromisoformat
             sample_time_fromisoformat one_booking _ _ one_booking_reachable)
      in Hin as [_ Hfree].
    apply (Hfree "b1" (set_status "pending_admin" (sample_draft 7 "b1")));
      by vm_compute.
Defined.

Lemma finalize_no_session st chat data :
  in_progress st !! chat = None →
  state_of (_finalize_booking st chat data) = st
  ∧ ∀ bid, Str.split1 ":" data !! 1%nat = Some bid →
      _finalize_booking st chat data
      = Done st [answer_callback_query "Booking preview not found."].
Proof.
  intros Hnone. unfold _finalize_booking, _get_progress. rewrite Hnone.
  split; [by destruct (_ !! 1%nat)|]. by intros bid ->.
Qed.

(** X3.  A confirm cannot be repeated: once the confirm of a draft has
    been accepted, a second press of the same button finds no draft and
    leaves the state as it is, so the booking is stored and listed once. *)
Theorem confirm_once st chat p r :
  in_progress st !! chat = Some p → preview p = Some r → user_id r = chat →
  time_slot r ∈ (PTime <$> _available_slots st (appointment_date r)) →
  let data := "confirm:" +:+ booking_id r in
  let st' := state_of (_finalize_booking st chat data) in
  _finalize_booking st' chat data
  = Done st' [answer_callback_query "Booking preview not found."].
Proof.
  intros Hp Hr Hu Hfree data st'.
  destruct (confirmed_intro st chat p r Hp Hr Hu Hfree) as (_ & _ & _ & Hgone).
  destruct (finalize_no_session st' chat data Hgone) as [_ Hpress].
  apply (Hpress (booking_id r)), split1_confirm.
Qed.

(** X4.  A cancel cannot be repeated either: whatever the state and the
    identifier, a second press of a cancel button reports "Nothing to
    cancel." and leaves the state as the first press left it. *)
Theorem cancel_twice st bid :
  let data := "cancel:" +:+ bid in
  let st' := state_of (_cancel_booking st data) in
  _cancel_booking st' data = Done st' [edit_message_text "Nothing to cancel."].
Proof.
  intros data st'. apply cancel_booking_missing. subst st' data.
  unfold _cancel_booking. rewrite split1_cancel.
  destruct (requests st !! bid) as [r|] eqn:Hr.
  - rewrite (cancel_request_stored st bid r) by done. simpl.
    apply lookup_delete_eq.
  - by rewrite cancel_request_missing.
Qed.

Lemma remove_first_snoc x l : x ∉ l → remove_first x (l ++ [x]) = l.
Proof.
  induction l as [|y l IH]; simpl; intros Hx.
  - by rewrite bool_decide_eq_true_2.
  - apply not_elem_of_cons in Hx as [Hne Hx].
    rewrite bool_decide_eq_false_2 by done. by rewrite IH.
Qed.

(** X5.  Confirming a draft and then cancelling the booking gives back
    the store: the stored bookings are as before, every user has the list
    of bookings they had, every pair has the holder it had, and the slots
    offered for every date are as before.  Only the session of the user
    is gone. *)
Theorem confirm_then_cancel st chat p r :
  consistent st →
  in_progress st !! chat = Some p → preview p = Some r →
  time_slot r ∈ (PTime <$> _available_slots st (appointment_date r)) →
  let st1 := state_of (_finalize_booking st chat ("confirm:" +:+ booking_id r)) in
  let st2 := state_of (_cancel_booking st1 ("cancel:" +:+ booking_id r)) in
  requests st2 = requests st
  ∧ (∀ u, default [] (user_requests st2 !! u) = default [] (user_requests st !! u))
  ∧ (∀ d t, holder st2 d t = holder st d t)
  ∧ (∀ d, _available_slots st2 d = _available_slots st d)
  ∧ in_progress st2 = delete chat (in_progress st).
Proof.
  intros Hst Hp Hr Hfree st1 st2.
  destruct (draft_owner st Hst _ _ _ Hp Hr) as [Hu Hnew].
  destruct (available_slot_free _ _ _ Hfree) as [_ Hnone].
  set (r' := set_status "pending_admin" r).
  assert (st1 = _save_request
                  (set_in_progress (<[chat := set_preview r' p]> (in_progress st)) st)
                  r') as Hst1.
  { subst st1. by destruct (finalize_available st chat p r) as [out ->]. }
  assert (requests st1 !! booking_id r = Some r') as Hr'.
  { rewrite Hst1, save_request_fields. simpl. apply lookup_insert_eq. }
  assert (st2 = canceled st1 (booking_id r) r') as Hst2.
  { subst st2. unfold _cancel_booking.
    by rewrite split1_cancel, (cancel_request_stored st1 _ r'). }
  assert (∀ d t, holder st2 d t = holder st d t) as Hholders.
  { intros d t. rewrite Hst2.
    destruct (decide ((d, t) = (appointment_date r, time_slot r))) as [Heq|Hne].
    - injection Heq as -> ->. rewrite Hnone.
      apply (holder_canceled st1 (booking_id r) r').
    - rewrite (holder_canceled_ne st1 (booking_id r) r') by done.
      rewrite Hst1, (holder_save_ne _ r') by done. done. }
  split_and!.
  - rewrite Hst2, requests_canceled, Hst1, save_request_fields. simpl.
    by apply delete_insert_id.
  - intros u. rewrite Hst2, user_requests_canceled, Hst1, save_request_fields.
    simpl. case_bool_decide as Hcase.
    + subst u. rewrite lookup_insert_eq. simpl. apply remove_first_snoc.
      destruct (user_requests st !! user_id r) as [l|] eqn:Hl; simpl.
      * intros Hin. destruct (listed_stored st Hst _ _ Hl) as [_ Hall].
        destruct (Hall _ Hin) as (r0 & Hr0 & _). congruence.
      * by intros ?%elem_of_nil.
    + by rewrite lookup_insert_ne.
  - done.
  - intros d. unfold _available_slots. apply list_filter_iff. intros t.
    by rewrite <-!holder_day, Hholders.
  - rewrite Hst2, in_progress_canceled, Hst1, save_request_fields. simpl.
    rewrite Hu. apply delete_insert_eq.
Qed.

(** X6.  The cancel button under the summary of a draft cancels nothing:
    in a consistent state the identifier of a draft is not in the store,
    the press reports "Nothing to cancel." and the session keeps its
    draft, which can still be confirmed. *)
Theorem cancel_keeps_draft st chat p r :
  consistent st →
  in_progress st !! chat = Some p → preview p = Some r →
  _cancel_booking st ("cancel:" +:+ booking_id r)
  = Done st [edit_message_text "Nothing to cancel."].
Proof.
  intros Hst Hp Hr. apply cancel_booking_missing.
  by destruct (draft_owner st Hst _ _ _ Hp Hr).
Qed.

(** Users 7 and 8 hold drafts; 7 confirms twice. *)
Lemma confirm_once_witness :
  _finalize_booking one_booking 7 "confirm:b1"
  = Done one_booking [answer_callback_query "Booking preview not found."].
Proof.
  apply (confirm_once two_drafts 7 (sample_session 7 "b1") (sample_draft 7 "b1"));
    [by vm_compute..|].
  apply (bool_decide_unpack _). by vm_compute.
Defined.

(** User 7 confirms, then cancels. *)
Lemma confirm_then_cancel_witness :
  let st2 := state_of (_cancel_booking one_booking "cancel:b1") in
  requests st2 = requests two_drafts
  ∧ (∀ u, default [] (user_requests st2 !! u)
          = default [] (user_requests two_drafts !! u))
  ∧ (∀ d t, holder st2 d t = holder two_drafts d t)
  ∧ (∀ d, _available_slots st2 d = _available_slots two_drafts d)
  ∧ in_progress st2 = delete 7 (in_progress two_drafts).
Proof.
  apply (confirm_then_cancel two_drafts 7 (sample_session 7 "b1")
           (sample_draft 7 "b1"));
    [apply two_drafts_consistent|by vm_compute..|].
  apply (bool_decide_unpack _). by vm_compute.
Defined.

(** User 8 presses the cancel button of the draft. *)
Lemma cancel_keeps_draft_witness :
  _cancel_booking two_drafts "cancel:b2"
  = Done two_drafts [edit_message_text "Nothing to cancel."].
Proof.
  apply (cancel_keeps_draft two_drafts 8 (sample_session 8 "b2")
           (sample_draft 8 "b2"));
    [apply two_drafts_consistent|by vm_compute..].
Defined.

(** * Further properties of the conversation *)

Ltac handler_cases :=
  repeat first [done | progress simpl | case_match | case_bool_decide].

Section Frames.

Variable strptime : string → option date.
Variable date_fromisoformat : string → option date.
Variable time_fromisoformat : string → option time.

Lemma same_store_prompt today new_id st chat :
  same_store st (state_of (_prompt_confirmation today new_id st chat)).
Proof. unfold _prompt_confirmation, same_store. handler_cases. Qed.

Lemma same_store_route today new_id st chat text :
  same_store st (state_of (_route_message strptime today new_id st chat text)).
Proof.
  unfold _route_message, _handle_category, _handle_form_field.
  destruct (live _); [|done].
  case_bool_decide; [unfold same_store; handler_cases|].
  case_bool_decide; [|done].
  destruct (_get_progress st chat); [|done].
  destruct (int_of _); [|done].
  destruct (py_index _ _) as [[[key prompt] parser]|]; [|done].
  destruct (parser text) as [[[] value] error]; simpl; [|done].
  case_bool_decide.
  - match goal with
    | |- same_store _ (state_of (_prompt_confirmation _ _ ?st0 _)) =>
        pose proof (same_store_prompt today new_id st0 chat) as Hprompt
    end.
    unfold same_store in *. simpl in Hprompt. done.
  - by destruct (py_index _ _) as [[[? ?] ?]|].
Qed.

(** X7.  The events of the conversation (start, a new booking, a text, a
    calendar or slot press) never touch the store: stored bookings, user
    lists and the slot registry are as before.  A cancel press and an
    admin decision never touch the sessions. *)
Theorem events_frame ev st :
  let st' := state_of
    (handle strptime date_fromisoformat time_fromisoformat ev st) in
  (conversational ev → same_store st st')
  ∧ ((∃ data, ev = CancelPress data ∨ ev = AdminPress data) →
     in_progress st' = in_progress st).
Proof.
  intros st'. subst st'. split.
  - destruct ev; simpl; intros Hev; try done.
    + apply same_store_route.
    + unfold _handle_calendar_selection, same_store. handler_cases.
    + unfold _handle_time_selection, same_store. handler_cases.
  - intros [data [->| ->]]; simpl.
    + unfold _cancel_booking. destruct (_ !! 1%nat) as [bid|]; [|done].
      destruct (requests st !! bid) as [r|] eqn:Hr.
      * by rewrite (cancel_request_stored st bid r).
      * by rewrite cancel_request_missing.
    + by destruct (admin_decision_cases st data)
        as [->|(x & decision & bid & r & _ & Hr & ->)].
Qed.

(** X8.  A text message changes the state in two cases only: the session
    is in the category stage and the text is one of the categories, or
    the session is in the fields stage.  Without a session, or in the
    calendar or time stage, it changes nothing. *)
Theorem text_changes_state today new_id st chat text :
  state_of (_route_message strptime today new_id st chat text) ≠ st →
  ∃ p, in_progress st !! chat = Some p
       ∧ ((entries p !! "stage" = Some (PStr "category") ∧ text ∈ CATEGORIES)
          ∨ entries p !! "stage" = Some (PStr "fields")).
Proof.
  unfold _route_message.
  destruct (live (_get_progress st chat)) as [p|] eqn:Hlive; [|done].
  apply live_inv in Hlive. intros Hchanged. exists p. split; [done|].
  assert (∀ s, get_entry "stage" PNone p = PStr s →
               entries p !! "stage" = Some (PStr s)) as Hstage.
  { unfold get_entry. intros s.
    destruct (entries p !! "stage") as [v|]; simpl; [|done]. by intros ->. }
  case_bool_decide as Hcat.
  - left. split; [by apply Hstage|]. unfold _handle_category in Hchanged.
    by case_bool_decide.
  - case_bool_decide as Hfields; [|done]. right. by apply Hstage.
Qed.

End Frames.

(** A text of user 7 in the fields stage leaves the store alone. *)
Lemma events_frame_witness :
  same_store at_first_field
    (state_of (sample_handle (TextMessage 7 "Ann" sample_today "b1") at_first_field)).
Proof.
  apply (events_frame sample_strptime sample_date_fromisoformat
           sample_time_fromisoformat (TextMessage 7 "Ann" sample_today "b1")).
  exact I.
Defined.

(** The answer "Ann" of user 7 changes the session. *)
Lemma text_changes_state_witness :
  ∃ p, in_progress at_first_field !! 7 = Some p
       ∧ ((entries p !! "stage" = Some (PStr "category") ∧ "Ann" ∈ CATEGORIES)
          ∨ entries p !! "stage" = Some (PStr "fields")).
Proof.
  apply (text_changes_state sample_strptime sample_today "b1").
  intros Heq. apply (f_equal (λ st, in_progress st !! 7 ≫= λ p, entries p !! "field_index")) in Heq.
  by vm_compute in Heq.
Defined.

(** * The form, answered from the first field to the last *)

Section Answers.

Variable strptime : string → option date.

Lemma prompt_draft today new_id st chat p :
  in_progress st !! chat = Some p → nonempty p = true →
  _prompt_confirmation today new_id st chat
  = Done (set_in_progress
            (<[chat := set_preview (draft_of today new_id chat p) p]> (in_progress st))
            st)
      [send_summary chat "" (draft_of today new_id chat p) "Confirm or cancel?"].
Proof.
  intros Hp Hlive. unfold _prompt_confirmation, _get_progress.
  by rewrite Hp, live_Some.
Qed.

Lemma form_field_accept today new_id st chat p i key prompt parser text :
  in_progress st !! chat = Some p →
  entries p !! "field_index" = Some (PInt i) → 0 ≤ i < 12 →
  py_index (form_fields strptime) i = Some (key, prompt, parser) →
  (parser text).1.1 = true →
  ∃ st',
    state_of (_handle_form_field strptime today new_id st chat text) = st'
    ∧ in_progress st' !! chat
      = Some (set_entry "field_index" (PInt (i + 1))
                (set_entry key (parser text).1.2 p))
    ∧ same_store st st'.
Proof.
  intros Hp Hi Hrange Hfield Hvalid.
  destruct (parser text) as [[valid v] e] eqn:Hparse. simpl in Hvalid. subst valid.
  destruct (accepted_input_advances strptime today new_id st chat p i key prompt
              parser text v e) as [out ->]; [done..|].
  eexists. split; [done|]. simpl. by rewrite lookup_insert_eq.
Qed.

Lemma form_field_last today new_id st chat p text :
  in_progress st !! chat = Some p →
  entries p !! "field_index" = Some (PInt 12) →
  (_parse_postal_code text).1.1 = true →
  ∃ st',
    state_of (_handle_form_field strptime today new_id st chat text) = st'
    ∧ in_progress st' !! chat
      = Some (set_preview
                (draft_of today new_id chat
                   (set_entry "postal" (_parse_postal_code text).1.2 p))
                (set_entry "postal" (_parse_postal_code text).1.2 p))
    ∧ same_store st st'.
Proof.
  intros Hp Hi Hvalid.
  destruct (_parse_postal_code text) as [[valid v] e] eqn:Hparse.
  simpl in Hvalid. subst valid.
  unfold _handle_form_field, _get_progress, get_entry.
  rewrite Hp, Hi. cbn [default from_option id int_of].
  rewrite form_fields_last, Hparse.
  cbn [negb]. rewrite bool_decide_eq_true_2 by (rewrite form_fields_length; lia).
  rewrite (prompt_draft today new_id _ chat (set_entry "postal" v p)).
  - eexists. split; [done|]. simpl. by rewrite lookup_insert_eq.
  - simpl. apply lookup_insert_eq.
  - apply (nonempty_entry _ "postal" v). simpl. apply lookup_insert_eq.
Qed.

End Answers.

Ltac read_entry :=
  unfold get_entry; cbn [entries set_entry];
  repeat first [rewrite lookup_insert_eq | rewrite lookup_insert_ne by done];
  done.

(** X9.  Thirteen accepted answers, sent one after the other to a session
    at the first field, build a draft that holds, field by field, the
    values the validators gave for them, with the category, date and time
    of the session, the status ["pending_user"] and the new identifier;
    the store is not touched. *)
Theorem complete_form_draft strptime today new_id st chat p
    t0 t1 t2 t3 t4 t5 t6 t7 t8 t9 t10 t11 t12 :
  in_progress st !! chat = Some p →
  entries p !! "field_index" = Some (PInt 0) →
  Forall2 (λ f text, (f.2 text).1.1 = true) (form_fields strptime)
    [t0; t1; t2; t3; t4; t5; t6; t7; t8; t9; t10; t11; t12] →
  let st' := fill_form strptime today new_id chat
               [t0; t1; t2; t3; t4; t5; t6; t7; t8; t9; t10; t11; t12] st in
  in_progress st' !! chat ≫= preview
  = Some (mk_request chat
            (get_entry "category" (PStr "") p)
            (get_entry "date" PNone p)
            (get_entry "time" PNone p)
            (mk_identity
               (_parse_required_text t0).1.2
               (_parse_optional_text t1).1.2
               (_parse_required_text t2).1.2
               (_parse_required_date strptime t3).1.2
               (_parse_optional_text t4).1.2
               (_parse_optional_date strptime t5).1.2
               (_parse_optional_date strptime t6).1.2)
            (mk_address
               (_parse_optional_text t7).1.2
               (_parse_required_text t8).1.2
               (_parse_required_text t9).1.2
               (_parse_required_text t10).1.2
               (_parse_required_text t11).1.2
               (_parse_postal_code t12).1.2)
            "pending_user" new_id)
  ∧ same_store st st'.
Proof.
  intros Hp0 Hi Hall st'. subst st'. unfold fill_form. cbn [foldl].
  unfold form_fields in Hall.
  repeat match goal with
         | H : Forall2 _ (_ :: _) (_ :: _) |- _ =>
             apply Forall2_cons in H as [? H]
         end.
  cbn [snd] in *. clear Hall.
  assert (same_store st st) as Hs0 by done.
  destruct (form_field_accept strptime today new_id st chat p 0
              "first_name" "Enter your first name:" _parse_required_text t0 Hp0)
    as (s1 & -> & Hp1 & Hs1); [done|lia|reflexivity|done|].
  destruct (form_field_accept strptime today new_id s1 chat _ 1
              "middle_name" "Enter your middle name (leave blank if none):" _parse_optional_text t1 Hp1)
    as (s2 & -> & Hp2 & Hs2); [by cbn [entries set_entry]; rewrite lookup_insert_eq|lia|reflexivity|done|].
  destruct (form_field_accept strptime today new_id s2 chat _ 2
              "last_name" "Enter your last name:" _parse_required_text t2 Hp2)
    as (s3 & -> & Hp3 & Hs3); [by cbn [entries set_entry]; rewrite lookup_insert_eq|lia|reflexivity|done|].
  destruct (form_field_accept strptime today new_id s3 chat _ 3
              "dob" "Enter your date of birth [DD/MM/YYYY]:" (_parse_required_date strptime) t3 Hp3)
    as (s4 & -> & Hp4 & Hs4); [by cbn [entries set_entry]; rewrite lookup_insert_eq|lia|reflexivity|done|].
  destruct (form_field_accept strptime today new_id s4 chat _ 4
              "license" "Driver's license number (optional, leave blank if none):" _parse_optional_text t4 Hp4)
    as (s5 & -> & Hp5 & Hs5); [by cbn [entries set_entry]; rewrite lookup_insert_eq|lia|reflexivity|done|].
  destruct (form_field_accept strptime today new_id s5 chat _ 5
              "license_issue" "License issue date [DD/MM/YYYY] (optional):" (_parse_optional_date strptime) t5 Hp5)
    as (s6 & -> & Hp6 & Hs6); [by cbn [entries set_entry]; rewrite lookup_insert_eq|lia|reflexivity|done|].
  destruct (form_field_accept strptime today new_id s6 chat _ 6
              "license_expiry" "License expiry date [DD/MM/YYYY] (optional):" (_parse_optional_date strptime) t6 Hp6)
    as (s7 & -> & Hp7 & Hs7); [by cbn [entries set_entry]; rewrite lookup_insert_eq|lia|reflexivity|done|].
  destruct (form_field_accept strptime today new_id s7 chat _ 7
              "suite" "Suite or unit number (leave blank if none):" _parse_optional_text t7 Hp7)
    as (s8 & -> & Hp8 & Hs8); [by cbn [entries set_entry]; rewrite lookup_insert_eq|lia|reflexivity|done|].
  destruct (form_field_accept strptime today new_id s8 chat _ 8
              "street_number" "Street number:" _parse_required_text t8 Hp8)
    as (s9 & -> & Hp9 & Hs9); [by cbn [entries set_entry]; rewrite lookup_insert_eq|lia|reflexivity|done|].
  destruct (form_field_accept strptime today new_id s9 chat _ 9
              "street_name" "Street name:" _parse_required_text t9 Hp9)
    as (s10 & -> & Hp10 & Hs10); [by cbn [entries set_entry]; rewrite lookup_insert_eq|lia|reflexivity|done|].
  destruct (form_field_accept strptime today new_id s10 chat _ 10
              "city" "City:" _parse_required_text t10 Hp10)
    as (s11 & -> & Hp11 & Hs11); [by cbn [entries set_entry]; rewrite lookup_insert_eq|lia|reflexivity|done|].
  destruct (form_field_accept strptime today new_id s11 chat _ 11
              "province" "Province:" _parse_required_text t11 Hp11)
    as (s12 & -> & Hp12 & Hs12); [by cbn [entries set_entry]; rewrite lookup_insert_eq|lia|reflexivity|done|].
  destruct (form_field_last strptime today new_id s12 chat _ t12 Hp12)
    as (s13 & -> & Hp13 & Hs13); [by cbn [entries set_entry]; rewrite lookup_insert_eq|done|].
  split.
  - rewrite Hp13. cbn [mbind option_bind preview set_preview]. unfold draft_of.
    f_equal. f_equal; [read_entry..| |]; f_equal; read_entry.
  - unfold same_store in *. destruct_and!. split_and!; congruence.
Qed.

(** User 7 answers the thirteen fields. *)
Lemma complete_form_draft_witness :
  let texts := ["Ann"; ""; "Lee"; "01/02/1990"; ""; ""; ""; ""; "12"; "Main St";
                "Ottawa"; "ON"; "a2a 1b4"] in
  let st' := fill_form sample_strptime sample_today "b1" 7 texts at_first_field in
  in_progress st' !! 7 ≫= preview = Some (sample_draft 7 "b1")
  ∧ same_store at_first_field st'.
Proof.
  destruct (in_progress at_first_field !! 7) as [p|] eqn:Hp; [|by vm_compute in Hp].
  destruct (complete_form_draft sample_strptime sample_today "b1" at_first_field 7 p
              "Ann" "" "Lee" "01/02/1990" "" "" "" "" "12" "Main St" "Ottawa" "ON"
              "a2a 1b4" Hp) as [Hdraft Hstore].
  - vm_compute in Hp. injection Hp as <-. by vm_compute.
  - repeat constructor.
  - split; [|exact Hstore]. rewrite Hdraft.
    vm_compute in Hp. injection Hp as <-. by vm_compute.
Defined.

